(** * The MediaPipe face-mesh extension of jspsych-contrib

    A shallow embedding of the extension class [MediapipeFacemeshExtension]
    as it is written in the two source files of the repository,

    - [src/src/index.ts] (module [Src] below), and
    - [src/packages/extension-mediapipe-face-mesh/src/index.ts] (module [Pkg]).

    The two files agree textually on every method except [initialize],
    [on_load] and [onFaceLandmarkerResult]; the shared methods are embedded
    once, the three others once per file.

    The instance fields and the parts of the browser the methods touch form
    one state record; every method is a computation in a state-and-exception
    monad over that record, so that a listener that throws unwinds the
    method that called it, as it does in JavaScript. *)

From Stdlib Require Import ZArith Lia.
From Stdlib Require Import Floats.PrimFloat.
From stdpp Require Import base list strings gmap.

Local Open Scope Z_scope.

(** ** Values *)

(** A JavaScript [number] is an IEEE 754 double. *)
Definition number : Set := float.
Bind Scope float_scope with number.

(** [number[]]: a packed 4x4 matrix when it has 16 entries. *)
Definition Matrix : Set := list number.

(** three.js [Euler] (the rotation order is left at its default). *)
Record Euler := mkEuler { e_x : number; e_y : number; e_z : number }.

(** three.js [Vector3]. *)
Record Vector3 := mkVector3 { v_x : number; v_y : number; v_z : number }.

(** [new Euler()] and [new Vector3()]. *)
Definition new_Euler : Euler := mkEuler 0%float 0%float 0%float.
Definition new_Vector3 : Vector3 := mkVector3 0%float 0%float 0%float.

(** [{ name: string; score: number }], an entry of
    [IFaceTrackingResult.blendshapes]. *)
Record NamedScore := mkNamedScore { name : string; score : number }.

(** [interface IFaceTrackingResult]. An optional field that is missing or
    holds [undefined] is [None]. [frame_id] is read from
    [this.animationFrameId], which is [undefined] until a frame was
    requested. *)
Record IFaceTrackingResult := mkTrackingResult {
  frame_id : option Z;
  transformation : option Matrix;
  rotation : option Euler;
  translation : option Vector3;
  blendshapes : option (list NamedScore)
}.

(** The object literal [{x, y, z}] used for [unityData.rotation] and
    [unityData.translation]. *)
Module XYZ.
Record t := mk { x : number; y : number; z : number }.
End XYZ.

(** The object literal [unityData] of [src/src/index.ts]. Its [blendshapes]
    is a JavaScript object used as a map from category name to
    [{ score }]. *)
Record UnityData := mkUnityData {
  u_landmarks : list number;
  u_orientation : string;
  u_blendshapes : gmap string number;
  u_rotation : XYZ.t;
  u_translation : XYZ.t
}.

(** What is pushed to [recordedChunks : Array<any>] and handed to the
    listeners: either shape. *)
Inductive Emitted :=
  | TrackingResult (r : IFaceTrackingResult)
  | Unity (u : UnityData).

(** ** Backend results *)

(** [NormalizedLandmark]. *)
Record NormalizedLandmark := mkLandmark {
  lm_x : number; lm_y : number; lm_z : number; visibility : option number
}.

(** [BlendshapeCategory]. *)
Record BlendshapeCategory := mkCategory {
  categoryName : string; cat_score : number
}.

(** [Blendshape]. *)
Record Blendshape := mkBlendshape { categories : list BlendshapeCategory }.

(** [FacialTransformationMatrix]. *)
Record FacialTransformationMatrix := mkFTM { data : Matrix }.

(** [FaceLandmarkerResult] of the new API; every field is optional. *)
Record FaceLandmarkerResult := mkFLResult {
  faceBlendshapes : option (list Blendshape);
  facialTransformationMatrixes : option (list FacialTransformationMatrix);
  landmarks : option (list (list NormalizedLandmark))
}.

(** [FaceGeometry]: an object whose
    [getPoseTransformMatrix().getPackedDataList()] is the given array. *)
Record FaceGeometry := mkGeometry { getPackedDataList : Matrix }.

(** [Results] of the old API. *)
Record Results := mkResults {
  multiFaceLandmarks : list (list NormalizedLandmark);
  multiFaceGeometry : list FaceGeometry
}.

(** ** Listeners, options, browser objects *)

(** A registered callback. Functions are compared by identity
    ([indexOf] uses [===]); the number is that identity. *)
Definition Callback := nat.

(** The [MediaStream] handed out by [jsPsych.pluginAPI.getCameraStream()]. *)
Definition MediaStream := nat.

(** The [params] of [initialize]. *)
Record InitParams := mkInitParams {
  useFaceLandmarker : option bool;
  useFullTracking : option bool;
  locateFile : option string
}.

(** The [params] of [on_load]. *)
Record LoadParams := mkLoadParams { record : option bool }.

(** An [HTMLVideoElement], as far as [on_start] configures it. *)
Record VideoElement := mkVideo {
  muted : bool;
  srcObject : option MediaStream;
  onloadedmetadata : bool;   (* the handler set by [on_start] is installed *)
  playing : bool             (* [play()] was called *)
}.

(** An [HTMLCanvasElement]. *)
Record CanvasElement := mkCanvas { width : Z; height : Z }.

(** Lines written to the console. *)
Inductive ConsoleLine :=
  | LogInitParams (params : option InitParams)
  | LogOnLoadParams (params : option LoadParams)
  | LogTrackedChunks (length : nat)
  | WarnCameraNotInitialized.

(** Calls into three.js that decompose a matrix. *)
Inductive ThreeCall :=
  | SetFromRotationMatrix (m : Matrix)
  | SetFromMatrixPosition (m : Matrix).

(** ** The state *)

(** The fields of the class, then the part of the environment the methods
    act on. [fullTracking] exists in the [Pkg] file only; [Src] never reads
    or writes it. *)
Record Ext := mkExt {
  (* fields of MediapipeFacemeshExtension *)
  recordedChunks : list Emitted;
  animationFrameId : option Z;
  mediaStream : option MediaStream;
  videoElement : option VideoElement;
  canvasElement : option CanvasElement;
  faceMesh : bool;            (* [this.faceMesh] holds an object *)
  faceLandmarker : bool;      (* [this.faceLandmarker] holds an object *)
  usingNewAPI : bool;
  onResultCallbacks : list Callback;
  recordTracks : bool;
  fullTracking : bool;
  (* environment *)
  faceMeshListener : bool;    (* [faceMesh.onResults] holds [onMediaPipeResult] *)
  detachedVideos : list VideoElement;  (* video elements replaced by [on_start] *)
  pendingFrames : list Z;     (* requested animation frames not yet run or cancelled *)
  nextFrameHandle : Z;        (* what [requestAnimationFrame] returns next *)
  sendsInFlight : nat;        (* [processFrame] activations suspended at [await send] *)
  invocations : list (Callback * Emitted);  (* listener calls, oldest first *)
  console : list ConsoleLine;
  threeCalls : list ThreeCall
}.

(** The state of a freshly constructed extension: the field initialisers of
    the class, nothing requested, nothing logged. *)
Definition new_Ext : Ext := {|
  recordedChunks := [];
  animationFrameId := None;
  mediaStream := None;
  videoElement := None;
  canvasElement := None;
  faceMesh := false;
  faceLandmarker := false;
  usingNewAPI := false;
  onResultCallbacks := [];
  recordTracks := false;
  fullTracking := false;
  faceMeshListener := false;
  detachedVideos := [];
  pendingFrames := [];
  nextFrameHandle := 1;
  sendsInFlight := 0;
  invocations := [];
  console := [];
  threeCalls := []
|}.

(** ** The environment the class is given

    three.js is a library outside the repository, and the listeners are the
    consumers' code: both are parameters of the model. A listener either
    returns or throws; what it does otherwise is not observed here, and it
    is taken not to call back into the extension while it runs. *)
Class Host := {
  (** [new Euler().setFromRotationMatrix(new Matrix4().fromArray(m))] *)
  setFromRotationMatrix : Matrix -> Euler;
  (** [new Vector3().setFromMatrixPosition(new Matrix4().fromArray(m))] *)
  setFromMatrixPosition : Matrix -> Vector3;
  (** whether [cb(result)] throws *)
  listenerThrows : Callback -> Emitted -> bool
}.

(** ** Computations: state and exceptions *)

Inductive JsError :=
  | TypeError (what : string)      (* a method called on [undefined] *)
  | BackendLoadFailure             (* a rejected promise of a backend *)
  | ListenerError (cb : Callback). (* thrown by a listener *)

Inductive Completion (A : Type) :=
  | Normal (a : A)
  | Throw (e : JsError).
Arguments Normal {A} a.
Arguments Throw {A} e.

Definition M (A : Type) : Type := Ext -> Completion A * Ext.

Definition ret {A} (a : A) : M A := fun s => (Normal a, s).

Definition bind {A B} (m : M A) (k : A -> M B) : M B :=
  fun s => match m s with
           | (Normal a, s') => k a s'
           | (Throw e, s') => (Throw e, s')
           end.

Definition throw {A} (e : JsError) : M A := fun s => (Throw e, s).
Definition gets {A} (f : Ext -> A) : M A := fun s => (Normal (f s), s).
Definition modify (f : Ext -> Ext) : M unit := fun s => (Normal tt, f s).

#[global] Instance M_ret : MRet M := @ret.
#[global] Instance M_bind : MBind M := fun A B k m => bind m k.

Definition when (b : bool) (m : M unit) : M unit := if b then m else ret tt.

(** Assignments to one field. *)
Definition set_recordedChunks v (s : Ext) : Ext :=
  mkExt v (animationFrameId s) (mediaStream s) (videoElement s)
    (canvasElement s) (faceMesh s) (faceLandmarker s) (usingNewAPI s)
    (onResultCallbacks s) (recordTracks s) (fullTracking s)
    (faceMeshListener s) (detachedVideos s) (pendingFrames s)
    (nextFrameHandle s) (sendsInFlight s) (invocations s) (console s)
    (threeCalls s).
Definition set_animationFrameId v (s : Ext) : Ext :=
  mkExt (recordedChunks s) v (mediaStream s) (videoElement s)
    (canvasElement s) (faceMesh s) (faceLandmarker s) (usingNewAPI s)
    (onResultCallbacks s) (recordTracks s) (fullTracking s)
    (faceMeshListener s) (detachedVideos s) (pendingFrames s)
    (nextFrameHandle s) (sendsInFlight s) (invocations s) (console s)
    (threeCalls s).
Definition set_mediaStream v (s : Ext) : Ext :=
  mkExt (recordedChunks s) (animationFrameId s) v (videoElement s)
    (canvasElement s) (faceMesh s) (faceLandmarker s) (usingNewAPI s)
    (onResultCallbacks s) (recordTracks s) (fullTracking s)
    (faceMeshListener s) (detachedVideos s) (pendingFrames s)
    (nextFrameHandle s) (sendsInFlight s) (invocations s) (console s)
    (threeCalls s).
Definition set_videoElement v (s : Ext) : Ext :=
  mkExt (recordedChunks s) (animationFrameId s) (mediaStream s) v
    (canvasElement s) (faceMesh s) (faceLandmarker s) (usingNewAPI s)
    (onResultCallbacks s) (recordTracks s) (fullTracking s)
    (faceMeshListener s) (detachedVideos s) (pendingFrames s)
    (nextFrameHandle s) (sendsInFlight s) (invocations s) (console s)
    (threeCalls s).
Definition set_canvasElement v (s : Ext) : Ext :=
  mkExt (recordedChunks s) (animationFrameId s) (mediaStream s)
    (videoElement s) v (faceMesh s) (faceLandmarker s) (usingNewAPI s)
    (onResultCallbacks s) (recordTracks s) (fullTracking s)
    (faceMeshListener s) (detachedVideos s) (pendingFrames s)
    (nextFrameHandle s) (sendsInFlight s) (invocations s) (console s)
    (threeCalls s).
Definition set_faceMesh v (s : Ext) : Ext :=
  mkExt (recordedChunks s) (animationFrameId s) (mediaStream s)
    (videoElement s) (canvasElement s) v (faceLandmarker s) (usingNewAPI
    s) (onResultCallbacks s) (recordTracks s) (fullTracking s)
    (faceMeshListener s) (detachedVideos s) (pendingFrames s)
    (nextFrameHandle s) (sendsInFlight s) (invocations s) (console s)
    (threeCalls s).
Definition set_faceLandmarker v (s : Ext) : Ext :=
  mkExt (recordedChunks s) (animationFrameId s) (mediaStream s)
    (videoElement s) (canvasElement s) (faceMesh s) v (usingNewAPI s)
    (onResultCallbacks s) (recordTracks s) (fullTracking s)
    (faceMeshListener s) (detachedVideos s) (pendingFrames s)
    (nextFrameHandle s) (sendsInFlight s) (invocations s) (console s)
    (threeCalls s).
Definition set_usingNewAPI v (s : Ext) : Ext :=
  mkExt (recordedChunks s) (animationFrameId s) (mediaStream s)
    (videoElement s) (canvasElement s) (faceMesh s) (faceLandmarker s) v
    (onResultCallbacks s) (recordTracks s) (fullTracking s)
    (faceMeshListener s) (detachedVideos s) (pendingFrames s)
    (nextFrameHandle s) (sendsInFlight s) (invocations s) (console s)
    (threeCalls s).
Definition set_onResultCallbacks v (s : Ext) : Ext :=
  mkExt (recordedChunks s) (animationFrameId s) (mediaStream s)
    (videoElement s) (canvasElement s) (faceMesh s) (faceLandmarker s)
    (usingNewAPI s) v (recordTracks s) (fullTracking s) (faceMeshListener
    s) (detachedVideos s) (pendingFrames s) (nextFrameHandle s)
    (sendsInFlight s) (invocations s) (console s) (threeCalls s).
Definition set_recordTracks v (s : Ext) : Ext :=
  mkExt (recordedChunks s) (animationFrameId s) (mediaStream s)
    (videoElement s) (canvasElement s) (faceMesh s) (faceLandmarker s)
    (usingNewAPI s) (onResultCallbacks s) v (fullTracking s)
    (faceMeshListener s) (detachedVideos s) (pendingFrames s)
    (nextFrameHandle s) (sendsInFlight s) (invocations s) (console s)
    (threeCalls s).
Definition set_fullTracking v (s : Ext) : Ext :=
  mkExt (recordedChunks s) (animationFrameId s) (mediaStream s)
    (videoElement s) (canvasElement s) (faceMesh s) (faceLandmarker s)
    (usingNewAPI s) (onResultCallbacks s) (recordTracks s) v
    (faceMeshListener s) (detachedVideos s) (pendingFrames s)
    (nextFrameHandle s) (sendsInFlight s) (invocations s) (console s)
    (threeCalls s).
Definition set_faceMeshListener v (s : Ext) : Ext :=
  mkExt (recordedChunks s) (animationFrameId s) (mediaStream s)
    (videoElement s) (canvasElement s) (faceMesh s) (faceLandmarker s)
    (usingNewAPI s) (onResultCallbacks s) (recordTracks s) (fullTracking
    s) v (detachedVideos s) (pendingFrames s) (nextFrameHandle s)
    (sendsInFlight s) (invocations s) (console s) (threeCalls s).
Definition set_detachedVideos v (s : Ext) : Ext :=
  mkExt (recordedChunks s) (animationFrameId s) (mediaStream s)
    (videoElement s) (canvasElement s) (faceMesh s) (faceLandmarker s)
    (usingNewAPI s) (onResultCallbacks s) (recordTracks s) (fullTracking
    s) (faceMeshListener s) v (pendingFrames s) (nextFrameHandle s)
    (sendsInFlight s) (invocations s) (console s) (threeCalls s).
Definition set_pendingFrames v (s : Ext) : Ext :=
  mkExt (recordedChunks s) (animationFrameId s) (mediaStream s)
    (videoElement s) (canvasElement s) (faceMesh s) (faceLandmarker s)
    (usingNewAPI s) (onResultCallbacks s) (recordTracks s) (fullTracking
    s) (faceMeshListener s) (detachedVideos s) v (nextFrameHandle s)
    (sendsInFlight s) (invocations s) (console s) (threeCalls s).
Definition set_nextFrameHandle v (s : Ext) : Ext :=
  mkExt (recordedChunks s) (animationFrameId s) (mediaStream s)
    (videoElement s) (canvasElement s) (faceMesh s) (faceLandmarker s)
    (usingNewAPI s) (onResultCallbacks s) (recordTracks s) (fullTracking
    s) (faceMeshListener s) (detachedVideos s) (pendingFrames s) v
    (sendsInFlight s) (invocations s) (console s) (threeCalls s).
Definition set_sendsInFlight v (s : Ext) : Ext :=
  mkExt (recordedChunks s) (animationFrameId s) (mediaStream s)
    (videoElement s) (canvasElement s) (faceMesh s) (faceLandmarker s)
    (usingNewAPI s) (onResultCallbacks s) (recordTracks s) (fullTracking
    s) (faceMeshListener s) (detachedVideos s) (pendingFrames s)
    (nextFrameHandle s) v (invocations s) (console s) (threeCalls s).
Definition set_invocations v (s : Ext) : Ext :=
  mkExt (recordedChunks s) (animationFrameId s) (mediaStream s)
    (videoElement s) (canvasElement s) (faceMesh s) (faceLandmarker s)
    (usingNewAPI s) (onResultCallbacks s) (recordTracks s) (fullTracking
    s) (faceMeshListener s) (detachedVideos s) (pendingFrames s)
    (nextFrameHandle s) (sendsInFlight s) v (console s) (threeCalls s).
Definition set_console v (s : Ext) : Ext :=
  mkExt (recordedChunks s) (animationFrameId s) (mediaStream s)
    (videoElement s) (canvasElement s) (faceMesh s) (faceLandmarker s)
    (usingNewAPI s) (onResultCallbacks s) (recordTracks s) (fullTracking
    s) (faceMeshListener s) (detachedVideos s) (pendingFrames s)
    (nextFrameHandle s) (sendsInFlight s) (invocations s) v (threeCalls s).
Definition set_threeCalls v (s : Ext) : Ext :=
  mkExt (recordedChunks s) (animationFrameId s) (mediaStream s)
    (videoElement s) (canvasElement s) (faceMesh s) (faceLandmarker s)
    (usingNewAPI s) (onResultCallbacks s) (recordTracks s) (fullTracking
    s) (faceMeshListener s) (detachedVideos s) (pendingFrames s)
    (nextFrameHandle s) (sendsInFlight s) (invocations s) (console s) v.

(** ** Arrays *)

(** [Array.prototype.indexOf]: the index of the first element that is
    [cb], or [-1]; [k] is the index of the head of [l]. *)
Fixpoint indexOf_from (k : Z) (l : list Callback) (cb : Callback) : Z :=
  match l with
  | [] => -1
  | c :: l' => if decide (c = cb) then k else indexOf_from (k + 1) l' cb
  end.

Definition indexOf (l : list Callback) (cb : Callback) : Z :=
  indexOf_from 0 l cb.

(** [Array.prototype.splice(start, deleteCount)] with no items to insert:
    the array that is left. A negative [start] counts from the end, and
    both arguments are clamped to the array. *)
Definition splice {A} (l : list A) (start deleteCount : Z) : list A :=
  let len := Z.of_nat (length l) in
  let actualStart :=
    if start <? 0 then Z.max (len + start) 0 else Z.min start len in
  let actualDeleteCount := Z.min (Z.max deleteCount 0) (len - actualStart) in
  take (Z.to_nat actualStart) l
    ++ drop (Z.to_nat (actualStart + actualDeleteCount)) l.

(** [x?.length] used as a condition: the array is there and not empty. *)
Definition has_length {A} (o : option (list A)) : bool :=
  match o with
  | Some (_ :: _) => true
  | _ => false
  end.

(** ** The browser's animation frames *)

(** [window.requestAnimationFrame(this.processFrame.bind(this))]. *)
Definition requestAnimationFrame : M Z :=
  h ← gets nextFrameHandle;
  modify (fun s => set_pendingFrames (pendingFrames s ++ [h]) s);;
  modify (set_nextFrameHandle (h + 1));;
  ret h.

(** [window.cancelAnimationFrame(id)]; an [undefined] or unknown [id]
    cancels nothing. *)
Definition cancelAnimationFrame (id : option Z) : M unit :=
  match id with
  | Some h =>
      modify (fun s =>
        set_pendingFrames (filter (fun h' => h' ≠ h) (pendingFrames s)) s)
  | None => ret tt
  end.

(** ** Methods the two files share *)

Definition console_write (line : ConsoleLine) : M unit :=
  modify (fun s => set_console (console s ++ [line]) s).

Definition stopAnimationFrame : M unit :=
  id ← gets animationFrameId;
  cancelAnimationFrame id.

Definition addTrackingResultCallback (callback : Callback) : M unit :=
  modify (fun s => set_onResultCallbacks (onResultCallbacks s ++ [callback]) s).

Definition removeTrackingResultCallback (callback : Callback) : M unit :=
  modify (fun s =>
    set_onResultCallbacks
      (splice (onResultCallbacks s) (indexOf (onResultCallbacks s) callback) 1)
      s).

Section Delivery.
Context `{Host}.

(** [cb(result)]: the call is made, then the listener returns or throws. *)
Definition call (cb : Callback) (result : Emitted) : M unit :=
  modify (fun s => set_invocations (invocations s ++ [(cb, result)]) s);;
  if listenerThrows cb result then throw (ListenerError cb) else ret tt.

(** [callbacks.forEach((cb) => cb(result))]. *)
Fixpoint forEach (callbacks : list Callback) (result : Emitted) : M unit :=
  match callbacks with
  | [] => ret tt
  | cb :: rest => call cb result;; forEach rest result
  end.

(** The two statements that close each result handler:
    [if (this.recordTracks) this.recordedChunks.push(result);]
    [this.onResultCallbacks.forEach((cb) => cb(result));] *)
Definition record_and_deliver (result : Emitted) : M unit :=
  recording ← gets recordTracks;
  when recording
    (modify (fun s => set_recordedChunks (recordedChunks s ++ [result]) s));;
  callbacks ← gets onResultCallbacks;
  forEach callbacks result.

(** The two three.js calls made on a transformation matrix. *)
Definition rotation_of (m : Matrix) : M Euler :=
  modify (fun s => set_threeCalls (threeCalls s ++ [SetFromRotationMatrix m]) s);;
  ret (setFromRotationMatrix m).

Definition translation_of (m : Matrix) : M Vector3 :=
  modify (fun s => set_threeCalls (threeCalls s ++ [SetFromMatrixPosition m]) s);;
  ret (setFromMatrixPosition m).

(** The handler of the old API. *)
Definition onMediaPipeResult (results : Results) : M unit :=
  match multiFaceGeometry results with
  | geometry :: _ =>
      let transformationMatrix := getPackedDataList geometry in
      rotation ← rotation_of transformationMatrix;
      translation ← translation_of transformationMatrix;
      frame ← gets animationFrameId;
      let result := {|
        frame_id := frame;
        transformation := Some transformationMatrix;
        rotation := Some rotation;
        translation := Some translation;
        blendshapes := None
      |} in
      record_and_deliver (TrackingResult result)
  | [] => ret tt
  end.
End Delivery.

(** [on_start]; [camera] is what [getCameraStream()] returns. The two
    [remove()] calls detach elements that were never attached; the video
    element that is replaced stays alive outside the class. *)
Definition on_start (camera : option MediaStream) : M unit :=
  old ← gets videoElement;
  modify (fun s => set_detachedVideos (option_list old ++ detachedVideos s) s);;
  modify (set_canvasElement (Some (mkCanvas 1280 720)));;
  modify (set_videoElement (Some (mkVideo true None false false)));;
  modify (set_mediaStream camera);;
  match camera with
  | None => console_write WarnCameraNotInitialized
  | Some stream =>
      modify (set_videoElement (Some (mkVideo true (Some stream) false false)));;
      modify (set_videoElement (Some (mkVideo true (Some stream) true false)));;
      newAPI ← gets usingNewAPI;
      when (negb newAPI)
        (mesh ← gets faceMesh;
         if (mesh : bool) then modify (set_faceMeshListener true)
         else throw (TypeError "faceMesh"));;
      modify (set_videoElement (Some (mkVideo true (Some stream) true true)))
  end.

(** The [onloadedmetadata] handler installed by [on_start]. *)
Definition onloadedmetadata_handler : M unit :=
  stopAnimationFrame;;
  h ← requestAnimationFrame;
  modify (set_animationFrameId (Some h)).

(** [on_finish]; the value is the [face_mesh] field of the object returned. *)
Definition on_finish : M (list Emitted) :=
  chunks ← gets recordedChunks;
  console_write (LogTrackedChunks (length chunks));;
  stopAnimationFrame;;
  modify (set_recordTracks false);;
  gets recordedChunks.

(** The last statement of [processFrame]: the next frame is requested. With
    the old API it runs when the awaited [send] has resolved. *)
Definition processFrame_resume : M unit :=
  h ← requestAnimationFrame;
  modify (set_animationFrameId (Some h)).

(** [processFrame] up to its [await]. [detected] is what [detectForVideo]
    returns for this frame; [handler] is the file's
    [onFaceLandmarkerResult]. With the old API the activation is suspended
    at [await this.faceMesh.send(...)]; with the new API nothing is awaited
    and the method runs to its end. *)
Definition processFrame (handler : FaceLandmarkerResult -> M unit)
    (detected : FaceLandmarkerResult) : M unit :=
  canvas ← gets canvasElement;
  (if canvas is Some _ then ret tt else throw (TypeError "canvasElement"));;
  newAPI ← gets usingNewAPI;
  if (newAPI : bool) then
    landmarker ← gets faceLandmarker;
    (if (landmarker : bool) then ret tt else throw (TypeError "faceLandmarker"));;
    handler detected;;
    processFrame_resume
  else
    mesh ← gets faceMesh;
    (if (mesh : bool) then ret tt else throw (TypeError "faceMesh"));;
    modify (fun s => set_sendsInFlight (S (sendsInFlight s)) s).

(** [params?.field ?? false]. *)
Definition flag_of {P} (params : option P) (field : P -> option bool) : bool :=
  default false (params ≫= field).

(** Backend creation, common to both files. [loads] says whether the
    backend's promises resolve. The awaits are taken to complete before the
    host calls another method and before the browser or the backend runs a
    callback: a session in which something runs during the awaits is not
    among the sessions below. The state the extension is in during the
    awaits is the one that [initialize] with [loads = false] leaves. *)
Definition create_backend (params : option InitParams) (loads : bool) : M unit :=
  newAPI ← gets usingNewAPI;
  if (newAPI : bool) then
    (if loads then modify (set_faceLandmarker true)
     else throw BackendLoadFailure)
  else
    modify (set_faceMesh true);;
    (if loads then ret tt else throw BackendLoadFailure).

(** ** [src/src/index.ts] *)
Module Src.

Definition initialize (params : option InitParams) (loads : bool) : M unit :=
  modify (set_usingNewAPI (flag_of params useFaceLandmarker));;
  create_backend params loads.

Definition on_load (params : option LoadParams) : M unit :=
  modify (set_recordedChunks []);;
  modify (set_recordTracks (flag_of params record)).

(** [results.landmarks[0].flatMap(lm => [lm.x, lm.y, lm.z])]. *)
Definition landmarksFlat_of (results : FaceLandmarkerResult) : list number :=
  match landmarks results with
  | Some (first :: _) =>
      flat_map (fun lm => [lm_x lm; lm_y lm; lm_z lm]) first
  | _ => []
  end.

(** [blendshapesObj[cat.categoryName] = { score: cat.score }] for each
    category of the first blendshape. The map holds the object's own
    properties, which is what [Object.keys] and [JSON.stringify] see. On a
    plain object an assignment to the name [__proto__] sets the prototype
    and adds no property. *)
Definition assign_score (obj : gmap string number) (cat : BlendshapeCategory)
    : gmap string number :=
  if decide (categoryName cat = "__proto__") then obj
  else <[categoryName cat := cat_score cat]> obj.

Definition blendshapesObj_of (results : FaceLandmarkerResult)
    : gmap string number :=
  match faceBlendshapes results with
  | Some (first :: _) => foldl assign_score ∅ (categories first)
  | _ => ∅
  end.

Section SrcHandlers.
Context `{Host}.

Definition onFaceLandmarkerResult (results : FaceLandmarkerResult)
    : M unit :=
  '(rotation, translation) ←
    match facialTransformationMatrixes results with
    | Some (first :: _) =>
        let transformationMatrix := data first in
        rotation ← rotation_of transformationMatrix;
        translation ← translation_of transformationMatrix;
        ret (rotation, translation)
    | _ => ret (new_Euler, new_Vector3)
    end;
  let landmarksFlat := landmarksFlat_of results in
  let blendshapesObj := blendshapesObj_of results in
  let orientation := "front" in
  let unityData := {|
    u_landmarks := landmarksFlat;
    u_orientation := orientation;
    u_blendshapes := blendshapesObj;
    u_rotation :=
      XYZ.mk (- e_x rotation)%float (e_y rotation) (e_z rotation);
    u_translation :=
      XYZ.mk (v_x translation / 100)%float (v_y translation / 100)%float
             (v_z translation / 100)%float
  |} in
  record_and_deliver (Unity unityData).

(** The object [onFaceLandmarkerResult] hands on, as a function of the
    backend's result. *)
Definition unityData_of (results : FaceLandmarkerResult) : UnityData :=
  let rotation :=
    match facialTransformationMatrixes results with
    | Some (first :: _) => setFromRotationMatrix (data first)
    | _ => new_Euler
    end in
  let translation :=
    match facialTransformationMatrixes results with
    | Some (first :: _) => setFromMatrixPosition (data first)
    | _ => new_Vector3
    end in
  {|
    u_landmarks := landmarksFlat_of results;
    u_orientation := "front";
    u_blendshapes := blendshapesObj_of results;
    u_rotation :=
      XYZ.mk (- e_x rotation)%float (e_y rotation) (e_z rotation);
    u_translation :=
      XYZ.mk (v_x translation / 100)%float (v_y translation / 100)%float
             (v_z translation / 100)%float
  |}.
End SrcHandlers.

End Src.

(** ** [src/packages/extension-mediapipe-face-mesh/src/index.ts] *)
Module Pkg.

Definition initialize (params : option InitParams) (loads : bool) : M unit :=
  console_write (LogInitParams params);;
  modify (set_usingNewAPI (flag_of params useFaceLandmarker));;
  modify (set_fullTracking (flag_of params useFullTracking));;
  create_backend params loads.

Definition on_load (params : option LoadParams) : M unit :=
  console_write (LogOnLoadParams params);;
  modify (set_recordedChunks []);;
  modify (set_recordTracks (flag_of params record)).

(** [results.faceBlendshapes[0].categories.map(...)], or [undefined]. *)
Definition blendshapes_of (results : FaceLandmarkerResult)
    : option (list NamedScore) :=
  match faceBlendshapes results with
  | Some (first :: _) =>
      Some (map (fun c => mkNamedScore (categoryName c) (cat_score c))
              (categories first))
  | _ => None
  end.

Section PkgHandlers.
Context `{Host}.

Definition onFaceLandmarkerResult (results : FaceLandmarkerResult)
    : M unit :=
  '(transformationMatrix, rotation, translation) ←
    match facialTransformationMatrixes results with
    | Some (first :: _) =>
        let transformationMatrix := data first in
        rotation ← rotation_of transformationMatrix;
        translation ← translation_of transformationMatrix;
        ret (Some transformationMatrix, Some rotation, Some translation)
    | _ => ret (None, None, None)
    end;
  let blendshapes := blendshapes_of results in
  full ← gets fullTracking;
  frame ← gets animationFrameId;
  let result :=
    if (full : bool) then {|
      frame_id := frame;
      transformation := transformationMatrix;
      rotation := rotation;
      translation := translation;
      blendshapes := blendshapes
    |} else {|
      frame_id := frame;
      transformation := transformationMatrix;
      rotation := rotation;
      translation := translation;
      blendshapes := None
    |} in
  record_and_deliver (TrackingResult result).

(** The object [onFaceLandmarkerResult] hands on in state [s], as a
    function of the backend's result. *)
Definition result_of (s : Ext) (results : FaceLandmarkerResult)
    : IFaceTrackingResult :=
  let matrix :=
    match facialTransformationMatrixes results with
    | Some (first :: _) => Some (data first)
    | _ => None
    end in
  {|
    frame_id := animationFrameId s;
    transformation := matrix;
    rotation := setFromRotationMatrix <$> matrix;
    translation := setFromMatrixPosition <$> matrix;
    blendshapes := if fullTracking s then blendshapes_of results else None
  |}.
End PkgHandlers.

End Pkg.

(** ** Sessions

    Everything that happens to an extension instance is one of these
    events: a call by the host runner or a consumer, or a callback run by
    the browser or by the old backend. *)

Inductive SourceFile := SrcIndex | PkgIndex.

Inductive Event :=
  | Initialize (params : option InitParams) (loads : bool)
  | OnStart (camera : option MediaStream)
  | OnLoad (params : option LoadParams)
  | OnFinish
  | AddTrackingResultCallback (callback : Callback)
  | RemoveTrackingResultCallback (callback : Callback)
  | LoadedMetadata                  (* a video element fires [loadedmetadata] *)
  | AnimationFrame (handle : Z) (detected : FaceLandmarkerResult)
                                    (* the browser runs a requested frame *)
  | SendResolved                    (* a pending [faceMesh.send] resolves *)
  | FaceMeshResults (results : Results).
                                    (* the old backend calls its listener *)

(** What a call evaluates to: [undefined], or the object of [on_finish]. *)
Inductive Value :=
  | Undefined
  | FaceMeshData (face_mesh : list Emitted).

(** Whether the environment can produce the event in a state: a handler
    runs only where it is installed, a frame only when it was requested and
    not cancelled, a continuation only when one is suspended. *)
Definition enabled (e : Event) (s : Ext) : bool :=
  match e with
  | LoadedMetadata =>
      existsb onloadedmetadata (option_list (videoElement s) ++ detachedVideos s)
  | AnimationFrame handle _ => bool_decide (handle ∈ pendingFrames s)
  | SendResolved => bool_decide (sendsInFlight s ≠ 0%nat)
  | FaceMeshResults _ => faceMeshListener s
  | _ => true
  end.

Section Sessions.
Context `{Host}.

Definition initialize (file : SourceFile) :=
  match file with
  | SrcIndex => Src.initialize
  | PkgIndex => Pkg.initialize
  end.

Definition on_load (file : SourceFile) :=
  match file with
  | SrcIndex => Src.on_load
  | PkgIndex => Pkg.on_load
  end.

Definition onFaceLandmarkerResult (file : SourceFile) :=
  match file with
  | SrcIndex => Src.onFaceLandmarkerResult
  | PkgIndex => Pkg.onFaceLandmarkerResult
  end.

(** The code an event runs. *)
Definition perform (file : SourceFile) (e : Event) : M Value :=
  match e with
  | Initialize params loads => initialize file params loads;; ret Undefined
  | OnStart camera => on_start camera;; ret Undefined
  | OnLoad params => on_load file params;; ret Undefined
  | OnFinish => chunks ← on_finish; ret (FaceMeshData chunks)
  | AddTrackingResultCallback callback =>
      addTrackingResultCallback callback;; ret Undefined
  | RemoveTrackingResultCallback callback =>
      removeTrackingResultCallback callback;; ret Undefined
  | LoadedMetadata => onloadedmetadata_handler;; ret Undefined
  | AnimationFrame handle detected =>
      modify (fun s =>
        set_pendingFrames (filter (fun h => h ≠ handle) (pendingFrames s)) s);;
      processFrame (onFaceLandmarkerResult file) detected;;
      ret Undefined
  | SendResolved =>
      modify (fun s => set_sendsInFlight (Nat.pred (sendsInFlight s)) s);;
      processFrame_resume;;
      ret Undefined
  | FaceMeshResults results => onMediaPipeResult results;; ret Undefined
  end.

Definition step (file : SourceFile) (e : Event) (s : Ext)
    : option (Completion Value * Ext) :=
  if enabled e s then Some (perform file e s) else None.

(** A session: the events in order, each with how its code completed.
    [None] when some event cannot occur where the list puts it. *)
Fixpoint run (file : SourceFile) (events : list Event) (s : Ext)
    : option (list (Event * Completion Value) * Ext) :=
  match events with
  | [] => Some ([], s)
  | e :: rest =>
      match step file e s with
      | Some (c, s') =>
          match run file rest s' with
          | Some (outcomes, s'') => Some ((e, c) :: outcomes, s'')
          | None => None
          end
      | None => None
      end
  end.
End Sessions.

(** ** A host for the closed examples

    Listener 13 throws on every result, every other listener returns. The
    matrices of the examples are pure translations, for which three.js
    yields the Euler angles [(-0, 0, -0)] and the position stored at
    indices 12 to 14. *)
Definition translation_matrix (tx ty tz : number) : Matrix :=
  [1; 0; 0; 0;  0; 1; 0; 0;  0; 0; 1; 0;  tx; ty; tz; 1]%float.

Definition example_host : Host := {|
  setFromRotationMatrix _ := mkEuler (-0)%float 0%float (-0)%float;
  setFromMatrixPosition m :=
    mkVector3 (nth 12 m nan) (nth 13 m nan) (nth 14 m nan);
  listenerThrows cb _ := bool_decide (cb = 13%nat)
|}.

Definition legacy_params : option InitParams :=
  Some (mkInitParams None None None).
Definition modern_params (full : option bool) : option InitParams :=
  Some (mkInitParams (Some true) full None).
Definition empty_detection : FaceLandmarkerResult := mkFLResult None None None.
Definition jawOpen_detection : FaceLandmarkerResult :=
  mkFLResult (Some [mkBlendshape [mkCategory "jawOpen" 0.5%float]]) None None.
Definition face_at (tx ty tz : number) : Results :=
  mkResults [] [mkGeometry (translation_matrix tx ty tz)].

(** ** Delivery, read off the code

    Closed forms of what [forEach] and [record_and_deliver] do, used to
    state the properties below. *)

Section DeliveryForms.
Context `{Host}.

(** The state after the two three.js calls on [m]. *)
Definition decomposed (m : Matrix) (s : Ext) : Ext :=
  set_threeCalls
    (threeCalls s ++ [SetFromRotationMatrix m; SetFromMatrixPosition m]) s.

(** The state after the decomposition a new-API result asks for: none when
    it carries no matrix. *)
Definition decomposed_for (results : FaceLandmarkerResult) (s : Ext) : Ext :=
  match facialTransformationMatrixes results with
  | Some (first :: _) => decomposed (data first) s
  | _ => s
  end.

(** The object [onMediaPipeResult] hands on in state [s] for a geometry. *)
Definition legacy_result (s : Ext) (geometry : FaceGeometry)
    : IFaceTrackingResult :=
  let m := getPackedDataList geometry in
  {|
    frame_id := animationFrameId s;
    transformation := Some m;
    rotation := Some (setFromRotationMatrix m);
    translation := Some (setFromMatrixPosition m);
    blendshapes := None
  |}.

(** What [onFaceLandmarkerResult] of a file hands on. *)
Definition modern_result (file : SourceFile) (s : Ext)
    (results : FaceLandmarkerResult) : Emitted :=
  match file with
  | SrcIndex => Unity (Src.unityData_of results)
  | PkgIndex => TrackingResult (Pkg.result_of s results)
  end.

(** The listeners [forEach] reaches: all up to and including the first
    that throws. *)
Fixpoint reached (callbacks : list Callback) (result : Emitted)
    : list Callback :=
  match callbacks with
  | [] => []
  | cb :: rest =>
      cb :: (if listenerThrows cb result then [] else reached rest result)
  end.

(** How [forEach] completes. *)
Definition delivery_completion (callbacks : list Callback) (result : Emitted)
    : Completion unit :=
  match List.find (fun cb => listenerThrows cb result) callbacks with
  | Some cb => Throw (ListenerError cb)
  | None => Normal tt
  end.

Definition calls_of (callbacks : list Callback) (result : Emitted)
    : list (Callback * Emitted) :=
  map (fun cb => (cb, result)) callbacks.

(** The state in which the listeners are called: the result was pushed if
    the extension is recording. *)
Definition recorded (result : Emitted) (s : Ext) : Ext :=
  if recordTracks s
  then set_recordedChunks (recordedChunks s ++ [result]) s
  else s.

(** The object an event makes the extension hand on, if any: a result of
    the old backend that carries a geometry, or the result of a frame that
    reaches [detectForVideo]. *)
Definition emission (file : SourceFile) (e : Event) (s : Ext)
    : option Emitted :=
  match e with
  | FaceMeshResults results =>
      match multiFaceGeometry results with
      | geometry :: _ => Some (TrackingResult (legacy_result s geometry))
      | [] => None
      end
  | AnimationFrame _ detected =>
      if bool_decide (is_Some (canvasElement s))
         && usingNewAPI s && faceLandmarker s
      then Some (modern_result file s detected)
      else None
  | _ => None
  end.

(** The listener calls an emission causes. *)
Definition calls_for (s : Ext) (emitted : option Emitted)
    : list (Callback * Emitted) :=
  match emitted with
  | Some result => calls_of (reached (onResultCallbacks s) result) result
  | None => []
  end.

End DeliveryForms.

(** The state after [addTrackingResultCallback(f1)] and
    [addTrackingResultCallback(f2)] on a new extension. *)
Definition two_listeners : Ext :=
  snd (addTrackingResultCallback 2%nat
         (snd (addTrackingResultCallback 1%nat new_Ext))).

(** ** Kinds of sessions and what is read off them *)

(** The value [params?.field ?? false] of the last [initialize] among
    [events]; [flag] if there is none. *)
Fixpoint last_flag (field : InitParams -> option bool) (events : list Event)
    (flag : bool) : bool :=
  match events with
  | [] => flag
  | Initialize params _ :: rest => last_flag field rest (flag_of params field)
  | _ :: rest => last_flag field rest flag
  end.

(** Every [initialize] selects the old backend. *)
Definition legacy_event (e : Event) : Prop :=
  ∀ params loads,
    e = Initialize params loads → flag_of params useFaceLandmarker = false.

(** [getCameraStream()] yields nothing whenever [on_start] asks. *)
Definition camera_unavailable (e : Event) : Prop :=
  ∀ camera, e = OnStart camera → camera = None.

(** No [on_load] switches recording on. *)
Definition recording_off (e : Event) : Prop :=
  ∀ params, e = OnLoad params → flag_of params record = false.

(** Whether an emitted object carries blendshapes: the optional field of
    an [IFaceTrackingResult] is there, or the map of a [unityData] object
    has an entry. *)
Definition carries_blendshapes (result : Emitted) : Prop :=
  match result with
  | TrackingResult r => is_Some (blendshapes r)
  | Unity u => u_blendshapes u ≠ ∅
  end.

(** Nothing is scheduled, bound, recorded or delivered: no frame is
    requested, no [send] is pending, the old backend has no listener, no
    video element has the [onloadedmetadata] handler, the log and the list
    of listener calls are empty. *)
Definition idle (s : Ext) : Prop :=
  faceMeshListener s = false
  ∧ pendingFrames s = []
  ∧ sendsInFlight s = 0%nat
  ∧ recordedChunks s = []
  ∧ invocations s = []
  ∧ existsb onloadedmetadata (option_list (videoElement s) ++ detachedVideos s)
    = false.

(** How [on_start] and [on_finish] complete when the camera is missing. *)
Definition degraded_outcome (e : Event) (c : Completion Value) : Prop :=
  match e with
  | OnStart _ => c = Normal Undefined
  | OnFinish => c = Normal (FaceMeshData [])
  | _ => True
  end.


(** Two states that differ at most in what only the [Pkg] file writes:
    the [fullTracking] field and the console. *)
Definition without_pkg_only (s : Ext) : Ext :=
  set_console [] (set_fullTracking false s).

Definition same_but_pkg_only (s1 s2 : Ext) : Prop :=
  without_pkg_only s1 = without_pkg_only s2.

Section SessionViews.
Context `{Host}.

(** The listener calls of a session from a new extension, oldest first. *)
Definition session_calls (file : SourceFile) (events : list Event)
    : option (list (Callback * Emitted)) :=
  (fun r => invocations (snd r)) <$> run file events new_Ext.

(** How the last event of a session completed. *)
Definition session_last (file : SourceFile) (events : list Event)
    : option (Completion Value) :=
  run file events new_Ext ≫= fun r => snd <$> last (fst r).

(** The state a session ends in. *)
Definition session_state (file : SourceFile) (events : list Event)
    : option Ext :=
  snd <$> run file events new_Ext.

End SessionViews.

(** ** Inputs of the closed examples *)

Definition recording_on : option LoadParams := Some (mkLoadParams (Some true)).

(** A session up to its first frame: [initialize], two listeners, [on_start]
    with camera 7, [on_load], the video's metadata. *)
Definition started (params : option InitParams) (first second : Callback)
    (load : option LoadParams) : list Event :=
  [Initialize params true;
   AddTrackingResultCallback first;
   AddTrackingResultCallback second;
   OnStart (Some 7%nat);
   OnLoad load;
   LoadedMetadata].

(** The [IFaceTrackingResult] of a frame without matrix or blendshapes. *)
Definition bare_result (frame : Z) : Emitted :=
  TrackingResult (mkTrackingResult (Some frame) None None None None).

(** The [IFaceTrackingResult] of the old backend for [face_at tx ty tz]. *)
Definition located_result (frame : Z) (tx ty tz : number) : Emitted :=
  TrackingResult
    (mkTrackingResult (Some frame) (Some (translation_matrix tx ty tz))
       (Some (mkEuler (-0) 0 (-0))) (Some (mkVector3 tx ty tz)) None).

(** The [unityData] object of a frame whose result carries no matrix. *)
Definition unity_at_origin (shapes : gmap string number) : Emitted :=
  Unity (mkUnityData [] "front" shapes (XYZ.mk (-0) 0 0) (XYZ.mk 0 0 0)).

(** A recording session on the old backend in which one result with a
    face at (1, 2, 3) arrived during the first frame. *)
Definition legacy_recording : list Event :=
  started legacy_params 1%nat 2%nat recording_on
  ++ [AnimationFrame 1 empty_detection; FaceMeshResults (face_at 1 2 3)].

(** The state that session ends in. *)
Definition legacy_recording_state : Ext :=
  default new_Ext (session_state (H := example_host) PkgIndex legacy_recording).

(** The [IFaceTrackingResult] of a frame whose result carries the one
    blendshape category [jawOpen] and no matrix. *)
Definition jawOpen_result (frame : Z) : Emitted :=
  TrackingResult
    (mkTrackingResult (Some frame) None None None
       (Some [mkNamedScore "jawOpen" 0.5])).

(** A session in which the camera is missing. *)
Definition without_camera : list Event :=
  [Initialize legacy_params true;
   AddTrackingResultCallback 1%nat;
   OnStart None;
   OnLoad recording_on;
   OnFinish].

(** A session on the old backend that does not record, with one result. *)
Definition legacy_not_recording : list Event :=
  started legacy_params 1%nat 2%nat None
  ++ [AnimationFrame 1 empty_detection; FaceMeshResults (face_at 1 2 3)].

(** * Further definitions: the frame loop, the log, the new API's objects *)

From Stdlib Require Sorting.Sorted.

(** [window.cancelAnimationFrame(id)] on the list of requested frames. *)
Definition cancelled (id : option Z) (pending : list Z) : list Z :=
  match id with
  | Some h => filter (fun h' => h' ≠ h) pending
  | None => pending
  end.

(** At most one frame is requested, it is the one [animationFrameId] names,
    and no [processFrame] is suspended at [await send]: there is one frame
    loop at most. *)
Definition single_loop (s : Ext) : Prop :=
  sendsInFlight s = 0%nat
  ∧ (pendingFrames s = []
     ∨ ∃ h, pendingFrames s = [h] ∧ animationFrameId s = Some h).

(** Every [initialize] selects the new backend. *)
Definition modern_event (e : Event) : Prop :=
  ∀ params loads,
    e = Initialize params loads → flag_of params useFaceLandmarker = true.

(** Every [initialize] finds its backend loading. *)
Definition loading_event (e : Event) : Prop :=
  ∀ params loads, e = Initialize params loads → loads = true.

(** The call returned, or a listener threw. *)
Definition listener_failure_at_most {A} (c : Completion A) : Prop :=
  match c with
  | Normal _ => True
  | Throw (ListenerError _) => True
  | Throw _ => False
  end.

(** The object of the selected backend exists, and the canvas exists
    wherever a frame can still run. *)
Definition ready (s : Ext) : Prop :=
  (if usingNewAPI s then faceLandmarker s else faceMesh s) = true
  ∧ (is_Some (canvasElement s)
     ∨ (pendingFrames s = []
        ∧ sendsInFlight s = 0%nat
        ∧ existsb onloadedmetadata
            (option_list (videoElement s) ++ detachedVideos s) = false)).

Section LogForms.
Context `{Host}.

(** The objects the events of a session hand on, in order, from state
    [s] on. *)
Fixpoint emitted_along (file : SourceFile) (events : list Event) (s : Ext)
    : list Emitted :=
  match events with
  | [] => []
  | e :: rest =>
      option_list (emission file e s)
      ++ emitted_along file rest (snd (perform file e s))
  end.

End LogForms.

(** Neither [on_load] nor [on_finish]. *)
Definition keeps_recording (e : Event) : Prop :=
  match e with
  | OnLoad _ | OnFinish => False
  | _ => True
  end.

(** Neither registration nor removal of a listener. *)
Definition keeps_registry (e : Event) : Prop :=
  match e with
  | AddTrackingResultCallback _ | RemoveTrackingResultCallback _ => False
  | _ => True
  end.

(** The last category of the given name, if any. *)
Definition last_named (name : string) (cats : list BlendshapeCategory)
    : option BlendshapeCategory :=
  last (filter (fun c => categoryName c = name) cats).

(** ** Inputs of further closed examples *)

(** A recording session on the new backend with full tracking, up to and
    including its first frame. *)
Definition modern_recording : list Event :=
  started (modern_params (Some true)) 1%nat 2%nat recording_on
  ++ [AnimationFrame 1 jawOpen_detection].

(** A recording session on the new backend whose first listener, 13,
    throws; up to the video's metadata. *)
Definition throwing_recording : list Event :=
  started (modern_params None) 13%nat 2%nat recording_on.

Definition throwing_recording_state : Ext :=
  default new_Ext
    (session_state (H := example_host) PkgIndex throwing_recording).

(** What follows an [on_load] in a session on the new backend with full
    tracking: two frames, the first with a blendshape. *)
Definition two_frames : list Event :=
  [Initialize (modern_params (Some true)) true;
   OnStart (Some 7%nat);
   LoadedMetadata;
   AnimationFrame 1 jawOpen_detection;
   AnimationFrame 2 empty_detection].

(** An identity rotation block with the position (1, 2, 3), and a second
    matrix. *)
Definition two_faces : FaceLandmarkerResult :=
  mkFLResult None
    (Some [mkFTM (translation_matrix 1 2 3); mkFTM (translation_matrix 4 5 6)])
    None.

(** A result with two faces: the first with two landmarks. *)
Definition two_landmarks : FaceLandmarkerResult :=
  mkFLResult None None
    (Some [[mkLandmark 1 1 1 None; mkLandmark 0.5 0.25 2 None];
           [mkLandmark 3 3 3 None]]).

(** A session in which the creation of the new backend fails and the host
    starts all the same; up to the video's metadata. *)
Definition failed_start : list Event :=
  [Initialize (modern_params None) false;
   AddTrackingResultCallback 1%nat;
   OnStart (Some 7%nat);
   OnLoad recording_on;
   LoadedMetadata].

Definition failed_start_state : Ext :=
  default new_Ext (session_state (H := example_host) PkgIndex failed_start).

(** ** Frame ids *)

(** The [frame_id] of an object handed on; the Unity object has none. *)
Definition frame_of (result : Emitted) : option Z :=
  match result with
  | TrackingResult r => frame_id r
  | Unity _ => None
  end.

(** The order of frame ids: [undefined] first, then the numbers. *)
Definition frame_le (a b : option Z) : Prop :=
  match a, b with
  | None, _ => True
  | Some x, Some y => x <= y
  | Some _, None => False
  end.

(** The frame ids of a list of objects never decrease. *)
Definition frames_ascend (results : list Emitted) : Prop :=
  Sorted.StronglySorted frame_le (map frame_of results).

(** The frame ids seen so far are sorted and bounded by
    [animationFrameId], which is older than the next handle. *)
Definition frames_up_to_now (s : Ext) : Prop :=
  (∀ i, animationFrameId s = Some i → i < nextFrameHandle s)
  ∧ Forall (fun r => frame_le (frame_of r) (animationFrameId s))
      (map snd (invocations s) ++ recordedChunks s)
  ∧ frames_ascend (map snd (invocations s))
  ∧ frames_ascend (recordedChunks s).

(** A recording session on the new backend with full tracking and two
    frames. *)
Definition two_frame_recording : list Event :=
  modern_recording ++ [AnimationFrame 2 empty_detection].

(** ** Inputs of the closed examples on recording and stale results *)

(** The state after [initialize] for the old backend has loaded. *)
Definition initialized_legacy : Ext :=
  snd (Pkg.initialize legacy_params true new_Ext).


(** A recording session on the old backend whose first listener, 13,
    throws: [on_finish] is called during the first frame, and the result
    of that frame arrives afterwards. *)
Definition thrower_finished : list Event :=
  started legacy_params 13%nat 2%nat recording_on
  ++ [AnimationFrame 1 empty_detection; OnFinish;
      FaceMeshResults (face_at 4 5 6)].

(** A recording session on the old backend that is finished and loaded
    again for recording before the result of a frame of the first trial
    arrives. *)
Definition stale_in_next_trial : list Event :=
  legacy_recording
  ++ [OnFinish; OnLoad recording_on; FaceMeshResults (face_at 4 5 6);
      OnFinish].
(** * Properties *)

(** ** Reading the state after an assignment *)

Ltac unfold_monad :=
  unfold when, mbind, M_bind, bind, ret, gets, modify, throw in *.

Create HintDb methods.
#[global] Hint Unfold perform initialize on_load Src.initialize Pkg.initialize
  Src.on_load Pkg.on_load create_backend on_start on_finish
  stopAnimationFrame cancelAnimationFrame console_write
  addTrackingResultCallback removeTrackingResultCallback
  onloadedmetadata_handler processFrame_resume requestAnimationFrame
  : methods.

Ltac unfold_methods := repeat autounfold with methods in *; unfold_monad.

Ltac by_cases_on s :=
  destruct s; simpl in *; repeat (case_match; simpl in * );
  simplify_eq/=; rewrite ?app_nil_r; try done.

Lemma set_invocations_twice v w s :
  set_invocations v (set_invocations w s) = set_invocations v s.
Proof. reflexivity. Qed.

Lemma set_invocations_same s : set_invocations (invocations s) s = s.
Proof. by destruct s. Qed.

(** ** Arrays *)

Lemma indexOf_from_absent k l cb : cb ∉ l → indexOf_from k l cb = -1.
Proof.
  revert k. induction l as [|c l IH]; intros k Hnot; simpl; first done.
  apply not_elem_of_cons in Hnot as [Hne Hnot].
  destruct (decide (c = cb)) as [->|_]; first done.
  by apply IH.
Qed.

Lemma indexOf_from_present k l cb :
  cb ∈ l →
  ∃ i : nat, indexOf_from k l cb = k + Z.of_nat i ∧ l !! i = Some cb
             ∧ (cb ∉ take i l).
Proof.
  revert k. induction l as [|c l IH]; intros k Hin; simpl.
  - by apply elem_of_nil in Hin.
  - destruct (decide (c = cb)) as [->|Hne].
    + exists 0%nat. split_and!; [lia | done | simpl; apply not_elem_of_nil].
    + apply elem_of_cons in Hin as [->|Hin]; first done.
      destruct (IH (k + 1) Hin) as (i & Hi & Hlook & Hbefore).
      exists (S i). split_and!; [lia | done |].
      simpl. by apply not_elem_of_cons.
Qed.

(** [splice(-1, 1)] drops the last element, if there is one. *)
Lemma splice_minus_one {A} (l : list A) : splice l (-1) 1 = removelast l.
Proof.
  unfold splice. simpl.
  destruct l as [|a l]; first done.
  remember (a :: l) as l' eqn:Hl'.
  assert (Hlen : (1 <= length l')%nat) by (subst l'; simpl; lia).
  replace (Z.to_nat (Z.max (Z.of_nat (length l') + -1) 0))
    with (Nat.pred (length l')) by lia.
  replace (Z.to_nat _) with (length l') by lia.
  rewrite drop_all, app_nil_r. symmetry. apply removelast_firstn_len.
Qed.

(** [splice(i, 1)] at an index of the array removes that element. *)
Lemma splice_at {A} (l : list A) (i : nat) :
  (i < length l)%nat → splice l (Z.of_nat i) 1 = delete i l.
Proof.
  intros Hi. unfold splice.
  replace (Z.of_nat i <? 0) with false by (symmetry; apply Z.ltb_ge; lia).
  replace (Z.to_nat (Z.min (Z.of_nat i) (Z.of_nat (length l)))) with i by lia.
  replace (Z.to_nat _) with (S i) by lia.
  by rewrite delete_take_drop.
Qed.

(** ** Delivery to the listeners *)

Section DeliveryFacts.
Context `{Host}.

Lemma forEach_eq callbacks result s :
  forEach callbacks result s =
    (delivery_completion callbacks result,
     set_invocations
       (invocations s ++ calls_of (reached callbacks result) result) s).
Proof.
  revert s. induction callbacks as [|cb rest IH]; intros s.
  - simpl. unfold ret, delivery_completion. simpl.
    by rewrite app_nil_r, set_invocations_same.
  - simpl. unfold call, delivery_completion. unfold_monad. simpl.
    destruct (listenerThrows cb result) eqn:Hthrows; simpl.
    + done.
    + rewrite IH. unfold delivery_completion. simpl.
      by rewrite set_invocations_twice, <- app_assoc.
Qed.

Lemma reached_quiet callbacks result :
  (∀ cb, cb ∈ callbacks → listenerThrows cb result = false) →
  reached callbacks result = callbacks
  ∧ delivery_completion callbacks result = Normal tt.
Proof.
  unfold delivery_completion.
  induction callbacks as [|cb rest IH]; intros Hquiet; simpl; first done.
  rewrite (Hquiet cb) by left.
  destruct IH as [-> IH2]; last done.
  intros c Hc. apply Hquiet. by right.
Qed.

Lemma reached_thrower before cb after result :
  (∀ c, c ∈ before → listenerThrows c result = false) →
  listenerThrows cb result = true →
  reached (before ++ cb :: after) result = before ++ [cb]
  ∧ delivery_completion (before ++ cb :: after) result
    = Throw (ListenerError cb).
Proof.
  unfold delivery_completion.
  induction before as [|b before IH]; intros Hquiet Hthrows; simpl.
  - by rewrite Hthrows.
  - rewrite (Hquiet b) by left.
    destruct IH as [-> IH2]; [|done..].
    intros c Hc. apply Hquiet. by right.
Qed.

Lemma record_and_deliver_eq result s :
  record_and_deliver result s =
    (delivery_completion (onResultCallbacks s) result,
     set_invocations
       (invocations s
        ++ calls_of (reached (onResultCallbacks s) result) result)
       (recorded result s)).
Proof.
  unfold record_and_deliver, recorded. unfold_monad.
  destruct (recordTracks s) eqn:Hrec; simpl; rewrite forEach_eq; done.
Qed.

(** The handlers, as one delivery each. *)

Lemma onMediaPipeResult_eq results s :
  onMediaPipeResult results s =
    match multiFaceGeometry results with
    | geometry :: _ =>
        record_and_deliver (TrackingResult (legacy_result s geometry))
          (decomposed (getPackedDataList geometry) s)
    | [] => (Normal tt, s)
    end.
Proof.
  unfold onMediaPipeResult.
  destruct (multiFaceGeometry results) as [|geometry ?]; first done.
  unfold rotation_of, translation_of. unfold_monad. simpl.
  rewrite !record_and_deliver_eq. unfold decomposed, legacy_result.
  destruct s; simpl. by rewrite <- !app_assoc.
Qed.

Lemma onFaceLandmarkerResult_eq file results s :
  onFaceLandmarkerResult file results s =
    record_and_deliver (modern_result file s results)
      (decomposed_for results s).
Proof.
  destruct file; simpl.
  - unfold Src.onFaceLandmarkerResult, Src.unityData_of, decomposed_for.
    destruct (facialTransformationMatrixes results) as [[|first ?]|];
      unfold rotation_of, translation_of, decomposed; unfold_monad; simpl;
      rewrite ?record_and_deliver_eq; try done.
    destruct s; simpl. by rewrite <- !app_assoc.
  - unfold Pkg.onFaceLandmarkerResult, Pkg.result_of, decomposed_for.
    destruct (facialTransformationMatrixes results) as [[|first ?]|];
      unfold rotation_of, translation_of, decomposed; unfold_monad; simpl;
      destruct (fullTracking s) eqn:Hfull;
      rewrite !record_and_deliver_eq; destruct s; simpl in *; subst;
      by rewrite <- ?app_assoc.
Qed.

End DeliveryFacts.

(** ** Removing a listener *)

(** [removeTrackingResultCallback] is a single assignment: it cannot throw. *)
Lemma removeTrackingResultCallback_returns callback s :
  fst (removeTrackingResultCallback callback s) = Normal tt.
Proof. reflexivity. Qed.

(** A registered listener: its first registration is removed. *)
Lemma removeTrackingResultCallback_registered callback s :
  callback ∈ onResultCallbacks s →
  ∃ i : nat,
    onResultCallbacks s !! i = Some callback
    ∧ (callback ∉ take i (onResultCallbacks s))
    ∧ (removeTrackingResultCallback callback s =
         (Normal tt,
          set_onResultCallbacks (delete i (onResultCallbacks s)) s)).
Proof.
  intros Hin.
  destruct (indexOf_from_present 0 _ _ Hin) as (i & Hi & Hlook & Hbefore).
  exists i. split_and!; [done..|].
  unfold removeTrackingResultCallback, modify, indexOf.
  rewrite Hi, Z.add_0_l, splice_at; first done.
  by apply lookup_lt_Some in Hlook.
Qed.

(** C1, as the code has it: removing a listener that is not registered
    does not throw, but it is not a no-op: [indexOf] yields [-1], and
    [splice(-1, 1)] removes the listener registered last. *)
Theorem removeTrackingResultCallback_unregistered callback s :
  callback ∉ onResultCallbacks s →
  removeTrackingResultCallback callback s =
    (Normal tt,
     set_onResultCallbacks (removelast (onResultCallbacks s)) s).
Proof.
  intros Hnot. unfold removeTrackingResultCallback, modify, indexOf.
  by rewrite indexOf_from_absent, splice_minus_one.
Qed.

Lemma removeTrackingResultCallback_unregistered_witness :
  (3%nat ∉ onResultCallbacks two_listeners)
  ∧ (removeTrackingResultCallback 3%nat two_listeners =
       (Normal tt, set_onResultCallbacks [1%nat] two_listeners)).
Proof.
  assert (Hnot : 3%nat ∉ onResultCallbacks two_listeners).
  { simpl. rewrite !not_elem_of_cons. split_and!; [lia..|apply not_elem_of_nil]. }
  split; first exact Hnot.
  exact (removeTrackingResultCallback_unregistered 3%nat two_listeners Hnot).
Defined.

(** ** What one event does to the listeners' calls and to the log *)

Section StepFacts.
Context `{Host}.

Lemma perform_AnimationFrame file handle detected s :
  perform file (AnimationFrame handle detected) s =
    let s0 :=
      set_pendingFrames (filter (fun h => h ≠ handle) (pendingFrames s)) s in
    match canvasElement s with
    | None => (Throw (TypeError "canvasElement"), s0)
    | Some _ =>
        if usingNewAPI s then
          if faceLandmarker s then
            match onFaceLandmarkerResult file detected s0 with
            | (Normal _, s1) =>
                (Normal Undefined,
                 set_animationFrameId (Some (nextFrameHandle s1))
                   (set_nextFrameHandle (nextFrameHandle s1 + 1)
                      (set_pendingFrames
                         (pendingFrames s1 ++ [nextFrameHandle s1]) s1)))
            | (Throw e, s1) => (Throw e, s1)
            end
          else (Throw (TypeError "faceLandmarker"), s0)
        else if faceMesh s
          then (Normal Undefined, set_sendsInFlight (S (sendsInFlight s)) s0)
          else (Throw (TypeError "faceMesh"), s0)
    end.
Proof.
  unfold perform, processFrame, processFrame_resume, requestAnimationFrame.
  unfold_monad. destruct s as [? ? ? ? canvas mesh landmarker newAPI ? ? ? ? ? ? ? ? ? ? ?].
  simpl. destruct canvas; simpl; last done.
  destruct newAPI; simpl.
  - destruct landmarker; simpl; last done.
    destruct (onFaceLandmarkerResult file detected _) as [[[]|e] s1]; done.
  - by destruct mesh.
Qed.

(** One case analysis serves every fact of the form "the event changes
    this field so": by event, by file where the files differ, then by the
    branches the code takes. *)
Ltac event_cases file e s :=
  destruct e;
  [ destruct file; unfold_methods; by_cases_on s
  | unfold_methods; by_cases_on s
  | destruct file; unfold_methods; by_cases_on s
  | unfold_methods; by_cases_on s
  | unfold_methods; by_cases_on s
  | unfold_methods; by_cases_on s
  | unfold_methods; by_cases_on s
  | rewrite perform_AnimationFrame; simpl;
    destruct (canvasElement s) eqn:?; simpl;
    [ destruct (usingNewAPI s) eqn:?; simpl;
      [ destruct (faceLandmarker s) eqn:?; simpl;
        [ rewrite onFaceLandmarkerResult_eq, record_and_deliver_eq;
          destruct (delivery_completion _ _);
          destruct file; unfold decomposed_for, decomposed, recorded;
          by_cases_on s
        | by_cases_on s ]
      | destruct (faceMesh s); by_cases_on s ]
    | by_cases_on s ]
  | unfold_methods; by_cases_on s
  | unfold perform; unfold_monad; rewrite onMediaPipeResult_eq; simpl;
    destruct (multiFaceGeometry _) as [|? ?]; simpl;
    [ by_cases_on s
    | rewrite record_and_deliver_eq;
      destruct (delivery_completion _ _); unfold decomposed, recorded;
      by_cases_on s ] ].

Lemma perform_invocations file e s :
  invocations (snd (perform file e s)) =
    invocations s ++ calls_for s (emission file e s).
Proof. event_cases file e s. Qed.

Lemma perform_recordedChunks file e s :
  recordedChunks (snd (perform file e s)) =
    match e with
    | OnLoad _ => []
    | _ =>
        recordedChunks s
        ++ (if recordTracks s then option_list (emission file e s) else [])
    end.
Proof. event_cases file e s. Qed.

Lemma perform_recordTracks file e s :
  recordTracks (snd (perform file e s)) =
    match e with
    | OnLoad params => flag_of params record
    | OnFinish => false
    | _ => recordTracks s
    end.
Proof. event_cases file e s. Qed.

Lemma perform_onResultCallbacks file e s :
  onResultCallbacks (snd (perform file e s)) =
    match e with
    | AddTrackingResultCallback cb => onResultCallbacks s ++ [cb]
    | RemoveTrackingResultCallback cb =>
        splice (onResultCallbacks s) (indexOf (onResultCallbacks s) cb) 1
    | _ => onResultCallbacks s
    end.
Proof. event_cases file e s. Qed.

Lemma perform_usingNewAPI file e s :
  usingNewAPI (snd (perform file e s)) =
    match e with
    | Initialize params _ => flag_of params useFaceLandmarker
    | _ => usingNewAPI s
    end.
Proof. event_cases file e s. Qed.

Lemma perform_fullTracking file e s :
  file = PkgIndex →
  fullTracking (snd (perform file e s)) =
    match e with
    | Initialize params _ => flag_of params useFullTracking
    | _ => fullTracking s
    end.
Proof. intros Hfile. event_cases file e s. Qed.

(** No method unbinds the listener of the old backend. *)
Lemma perform_faceMeshListener_kept file e s :
  faceMeshListener s = true →
  faceMeshListener (snd (perform file e s)) = true.
Proof. intros Hbound. event_cases file e s. Qed.

End StepFacts.

(** ** Listeners: registration and delivery *)

Section ListenerFacts.
Context `{Host}.

(** C7, as the code has it: the registry is an array. Registering appends,
    also when the function is registered already, and a result is delivered
    once per registration, synchronously and in registration order
    (shown here for listeners that return). *)
Theorem delivery_once_per_registration callback result s :
  (∀ cb, cb ∈ onResultCallbacks s ++ [callback] →
         listenerThrows cb result = false) →
  ∃ s1 s2,
    addTrackingResultCallback callback s = (Normal tt, s1)
    ∧ onResultCallbacks s1 = onResultCallbacks s ++ [callback]
    ∧ record_and_deliver result s1 = (Normal tt, s2)
    ∧ invocations s2 =
        invocations s ++ calls_of (onResultCallbacks s ++ [callback]) result.
Proof.
  intros Hquiet.
  exists (set_onResultCallbacks (onResultCallbacks s ++ [callback]) s).
  eexists. split_and!; [done | by destruct s | |].
  - rewrite record_and_deliver_eq.
    replace (onResultCallbacks (set_onResultCallbacks _ s))
      with (onResultCallbacks s ++ [callback]) by (by destruct s).
    destruct (reached_quiet _ _ Hquiet) as [-> ->]. done.
  - unfold recorded. by_cases_on s.
Qed.

(** C4, as the code has it: [forEach] has no handler around the call, so
    the listeners registered before the one that throws are called, it is
    called, the listeners registered after it are not, and the exception
    leaves the result handler. *)
Theorem listener_throw_stops_delivery result s before callback behind :
  onResultCallbacks s = before ++ callback :: behind →
  (∀ cb, cb ∈ before → listenerThrows cb result = false) →
  listenerThrows callback result = true →
  ∃ s',
    record_and_deliver result s = (Throw (ListenerError callback), s')
    ∧ invocations s' =
        invocations s ++ calls_of (before ++ [callback]) result.
Proof.
  intros Hregistry Hquiet Hthrows.
  eexists. rewrite record_and_deliver_eq, Hregistry.
  destruct (reached_thrower before callback behind result Hquiet Hthrows)
    as [-> ->].
  split; first done.
  unfold recorded. by_cases_on s.
Qed.

(** The exception reaches [processFrame]: the frame that ran is gone and
    no next frame is requested. *)
Lemma listener_throw_stops_frames file handle detected s before callback behind :
  is_Some (canvasElement s) →
  usingNewAPI s = true →
  faceLandmarker s = true →
  onResultCallbacks s = before ++ callback :: behind →
  (∀ cb, cb ∈ before →
         listenerThrows cb (modern_result file s detected) = false) →
  listenerThrows callback (modern_result file s detected) = true →
  ∃ s',
    perform file (AnimationFrame handle detected) s
      = (Throw (ListenerError callback), s')
    ∧ pendingFrames s' = filter (fun h => h ≠ handle) (pendingFrames s).
Proof.
  intros [canvas Hcanvas] Hnew Hlandmarker Hregistry Hquiet Hthrows.
  rewrite perform_AnimationFrame, Hcanvas, Hnew, Hlandmarker. simpl.
  rewrite onFaceLandmarkerResult_eq, record_and_deliver_eq.
  replace (onResultCallbacks (decomposed_for detected _))
    with (before ++ callback :: behind)
    by (rewrite <- Hregistry; unfold decomposed_for, decomposed; by_cases_on s).
  replace (modern_result file (set_pendingFrames _ s) detected)
    with (modern_result file s detected)
    by (destruct file; [done | by destruct s]).
  destruct (reached_thrower before callback behind _ Hquiet Hthrows)
    as [-> ->].
  eexists. split; first done.
  unfold recorded, decomposed_for, decomposed. by_cases_on s.
Qed.

End ListenerFacts.

Lemma delivery_once_per_registration_witness :
  ∃ s1 s2,
    addTrackingResultCallback 1%nat (snd (addTrackingResultCallback 1%nat new_Ext))
      = (Normal tt, s1)
    ∧ onResultCallbacks s1 = [1%nat; 1%nat]
    ∧ record_and_deliver (H := example_host) (bare_result 1) s1 = (Normal tt, s2)
    ∧ invocations s2 = [(1%nat, bare_result 1); (1%nat, bare_result 1)].
Proof.
  apply (delivery_once_per_registration (H := example_host) 1%nat
           (bare_result 1) (snd (addTrackingResultCallback 1%nat new_Ext))).
  intros cb Hcb. simpl in *.
  apply bool_decide_eq_false.
  rewrite !elem_of_cons, elem_of_nil in Hcb. lia.
Defined.

(** C7 does not hold of the code: a function registered twice is called
    twice for the one result of a frame. *)
Lemma listener_registered_twice_called_twice :
  session_calls (H := example_host) PkgIndex
    (started (modern_params None) 1%nat 1%nat None
     ++ [AnimationFrame 1 empty_detection])
  = Some [(1%nat, bare_result 1); (1%nat, bare_result 1)].
Proof. vm_compute. reflexivity. Qed.

Lemma listener_throw_stops_delivery_witness :
  ∃ s',
    record_and_deliver (H := example_host) (bare_result 1)
      (set_onResultCallbacks [1%nat; 13%nat; 2%nat] new_Ext)
      = (Throw (ListenerError 13%nat), s')
    ∧ invocations s' = [(1%nat, bare_result 1); (13%nat, bare_result 1)].
Proof.
  apply (listener_throw_stops_delivery (H := example_host) (bare_result 1)
           (set_onResultCallbacks [1%nat; 13%nat; 2%nat] new_Ext)
           [1%nat] 13%nat [2%nat]).
  - reflexivity.
  - intros cb Hcb. apply bool_decide_eq_false.
    rewrite elem_of_cons, elem_of_nil in Hcb. lia.
  - reflexivity.
Defined.

(** C4 does not hold of the code: listener 13 throws, listener 2,
    registered after it, is never called with the result, and the frame's
    code completes with the exception. *)
Lemma throwing_listener_starves_the_next :
  session_calls (H := example_host) PkgIndex
    (started (modern_params None) 13%nat 2%nat None
     ++ [AnimationFrame 1 empty_detection])
  = Some [(13%nat, bare_result 1)]
  ∧ session_last (H := example_host) PkgIndex
      (started (modern_params None) 13%nat 2%nat None
       ++ [AnimationFrame 1 empty_detection])
    = Some (Throw (ListenerError 13%nat)).
Proof. split; vm_compute; reflexivity. Qed.

(** ** [on_finish] *)

Lemma on_finish_eq s :
  on_finish s =
    (Normal (recordedChunks s),
     set_recordTracks false
       (set_pendingFrames
          (match animationFrameId s with
           | Some h => filter (fun h' => h' ≠ h) (pendingFrames s)
           | None => pendingFrames s
           end)
          (set_console
             (console s ++ [LogTrackedChunks (length (recordedChunks s))])
             s))).
Proof. unfold_methods. by_cases_on s. Qed.

(** C6, as the code has it: [on_finish] never throws and does not clear
    the log, so a second call in a row returns the same log as the first;
    that log is empty only if nothing was recorded since the last
    [on_load]. *)
Theorem on_finish_twice s :
  ∃ s1 s2,
    on_finish s = (Normal (recordedChunks s), s1)
    ∧ on_finish s1 = (Normal (recordedChunks s), s2)
    ∧ recordedChunks s2 = recordedChunks s.
Proof.
  exists (snd (on_finish s)), (snd (on_finish (snd (on_finish s)))).
  rewrite !on_finish_eq. simpl. split_and!; by_cases_on s.
Qed.

(** C6 does not hold of the code: after a recording session the second
    [on_finish] in a row returns the recorded result again. *)
Lemma second_on_finish_returns_the_log :
  session_last (H := example_host) PkgIndex
    (legacy_recording ++ [OnFinish; OnFinish])
  = Some (Normal (FaceMeshData [located_result 1 1 2 3]))
  ∧ session_last (H := example_host) PkgIndex
      (legacy_recording ++ [OnFinish; OnFinish])
    ≠ Some (Normal (FaceMeshData [])).
Proof.
  assert (Hlast : session_last (H := example_host) PkgIndex
                    (legacy_recording ++ [OnFinish; OnFinish])
                  = Some (Normal (FaceMeshData [located_result 1 1 2 3])))
    by (vm_compute; reflexivity).
  split; first exact Hlast.
  rewrite Hlast. discriminate.
Qed.

(** ** Results of the old backend that arrive after [on_finish] *)

Section StaleResults.
Context `{Host}.

Lemma perform_FaceMeshResults_completion file results s :
  fst (perform file (FaceMeshResults results) s) =
    match multiFaceGeometry results with
    | geometry :: _ =>
        match delivery_completion (onResultCallbacks s)
                (TrackingResult (legacy_result s geometry)) with
        | Normal _ => Normal Undefined
        | Throw e => Throw e
        end
    | [] => Normal Undefined
    end.
Proof.
  unfold perform. unfold_monad. rewrite onMediaPipeResult_eq.
  destruct (multiFaceGeometry results) as [|geometry ?]; first done.
  rewrite record_and_deliver_eq. unfold decomposed, legacy_result.
  by_cases_on s.
Qed.

End StaleResults.

(** ** Frames of the new backend without a transformation matrix *)

Section ModernFacts.
Context `{Host}.

(** C3, as the code has it: when the backend's result carries no facial
    transformation matrix, neither file calls three.js to decompose
    anything. The [Pkg] file then leaves [transformation], [rotation] and
    [translation] out of the result. The [Src] file has no
    [transformation] field and always reports [rotation] and
    [translation]: those of [new Euler()] and [new Vector3()], the x angle
    negated and the position divided by 100. *)
Theorem no_matrix_no_decomposition file detected s :
  has_length (facialTransformationMatrixes detected) = false →
  onFaceLandmarkerResult file detected s
    = record_and_deliver (modern_result file s detected) s
  ∧ threeCalls (snd (onFaceLandmarkerResult file detected s)) = threeCalls s
  ∧ match file with
    | PkgIndex =>
        ∃ r, modern_result file s detected = TrackingResult r
             ∧ transformation r = None
             ∧ rotation r = None
             ∧ translation r = None
    | SrcIndex =>
        ∃ u, modern_result file s detected = Unity u
             ∧ u_rotation u = XYZ.mk (-0) 0 0
             ∧ u_translation u = XYZ.mk 0 0 0
    end.
Proof.
  intros Hnone.
  assert (Hfor : decomposed_for detected s = s).
  { unfold decomposed_for.
    by destruct (facialTransformationMatrixes detected) as [[|? ?]|]. }
  rewrite onFaceLandmarkerResult_eq, Hfor.
  split; first done.
  split.
  - rewrite record_and_deliver_eq. unfold recorded. by_cases_on s.
  - destruct file; simpl; eexists; (split; first done);
      unfold Src.unityData_of, Pkg.result_of;
      by destruct (facialTransformationMatrixes detected) as [[|? ?]|].
Qed.

End ModernFacts.

Lemma no_matrix_no_decomposition_witness :
  onFaceLandmarkerResult (H := example_host) PkgIndex empty_detection
      two_listeners
    = record_and_deliver (H := example_host)
        (modern_result (H := example_host) PkgIndex two_listeners
           empty_detection)
        two_listeners
  ∧ threeCalls
      (snd (onFaceLandmarkerResult (H := example_host) PkgIndex
              empty_detection two_listeners)) = []
  ∧ ∃ r, modern_result (H := example_host) PkgIndex two_listeners
           empty_detection = TrackingResult r
         ∧ transformation r = None
         ∧ rotation r = None
         ∧ translation r = None.
Proof.
  apply (no_matrix_no_decomposition (H := example_host) PkgIndex
           empty_detection two_listeners).
  reflexivity.
Defined.

(** C3 does not hold of [src/src/index.ts]: for a result without matrix
    the listeners receive an object whose rotation and translation are
    there and zero. *)
Lemma src_reports_zero_pose_without_matrix :
  session_calls (H := example_host) SrcIndex
    (started (modern_params None) 1%nat 2%nat None
     ++ [AnimationFrame 1 empty_detection])
  = Some [(1%nat, unity_at_origin ∅); (2%nat, unity_at_origin ∅)].
Proof. vm_compute. reflexivity. Qed.

(** ** Sessions *)

Section SessionFacts.
Context `{Host}.

Lemma run_cons file e rest s outcomes s'' :
  run file (e :: rest) s = Some (outcomes, s'') →
  ∃ tail,
    enabled e s = true
    ∧ outcomes = (e, fst (perform file e s)) :: tail
    ∧ run file rest (snd (perform file e s)) = Some (tail, s'').
Proof.
  simpl. unfold step.
  destruct (enabled e s); last done.
  destruct (perform file e s) as [c s']. simpl.
  destruct (run file rest s') as [[tail s3]|]; last done.
  intros [= <- <-]. by exists tail.
Qed.

(** Induction along a session: a property of the state that every allowed
    event preserves holds at the end, and every event completed as the
    step says. *)
Lemma run_preserves file (allowed : Event → Prop) (P : Ext → Prop)
    (Q : Event → Completion Value → Prop) :
  (∀ e s, allowed e → P s → enabled e s = true →
          P (snd (perform file e s)) ∧ Q e (fst (perform file e s))) →
  ∀ events s outcomes s',
    Forall allowed events → P s →
    run file events s = Some (outcomes, s') →
    P s' ∧ Forall (fun ec => Q (fst ec) (snd ec)) outcomes.
Proof.
  intros Hstep events.
  induction events as [|e rest IH]; intros s outcomes s' Hall HP Hrun.
  - simpl in Hrun. by simplify_eq.
  - apply run_cons in Hrun as (tail & Hen & -> & Hrest).
    apply Forall_cons in Hall as [He Hall].
    destruct (Hstep e s He HP Hen) as [HP' HQ].
    destruct (IH _ _ _ Hall HP' Hrest) as [Hend Htail].
    split; first done. by constructor.
Qed.

Lemma run_last_flags file events s outcomes s' :
  run file events s = Some (outcomes, s') →
  usingNewAPI s' = last_flag useFaceLandmarker events (usingNewAPI s)
  ∧ (file = PkgIndex →
     fullTracking s' = last_flag useFullTracking events (fullTracking s)).
Proof.
  revert s outcomes.
  induction events as [|e rest IH]; intros s outcomes Hrun.
  - simpl in Hrun. by simplify_eq.
  - apply run_cons in Hrun as (tail & _ & -> & Hrest).
    destruct (IH _ _ Hrest) as [Hnew Hfull].
    rewrite perform_usingNewAPI in Hnew.
    split.
    + rewrite Hnew. by destruct e.
    + intros Hfile. rewrite (Hfull Hfile), perform_fullTracking by done.
      by destruct e.
Qed.

(** *** The camera is missing *)

Lemma on_start_without_camera s :
  on_start None s =
    (Normal tt,
     set_console (console s ++ [WarnCameraNotInitialized])
       (set_mediaStream None
          (set_videoElement (Some (mkVideo true None false false))
             (set_canvasElement (Some (mkCanvas 1280 720))
                (set_detachedVideos
                   (option_list (videoElement s) ++ detachedVideos s) s))))).
Proof. unfold_methods. by_cases_on s. Qed.

Lemma idle_step file e s :
  camera_unavailable e → idle s → enabled e s = true →
  idle (snd (perform file e s)) ∧ degraded_outcome e (fst (perform file e s)).
Proof.
  unfold idle. intros Hcamera (Hbound & Hframes & Hsends & Hlog & Hcalls & Hvideo)
    Hen.
  destruct e; simpl in Hen.
  - destruct file; unfold_methods; by_cases_on s.
  - rewrite (Hcamera camera eq_refl). unfold perform. unfold_monad.
    rewrite on_start_without_camera. by_cases_on s.
  - destruct file; unfold_methods; by_cases_on s.
  - unfold perform. unfold_monad. rewrite on_finish_eq. simpl.
    rewrite Hlog. by_cases_on s.
  - unfold_methods; by_cases_on s.
  - unfold_methods; by_cases_on s.
  - by rewrite Hvideo in Hen.
  - rewrite Hframes in Hen.
    by apply bool_decide_eq_true in Hen as []%elem_of_nil.
  - rewrite Hsends in Hen. by apply bool_decide_eq_true in Hen.
  - by rewrite Hbound in Hen.
Qed.

(** C8: in a session in which the camera is missing whenever [on_start]
    asks for it, [on_start] returns without an exception, and the
    extension stays idle: no frame is ever requested, no handler is bound,
    no listener is ever called. [on_finish] returns an empty log. A
    further [on_start] writes the warning to the console and leaves the
    extension idle. *)
Theorem camera_unavailable_session file events outcomes s :
  Forall camera_unavailable events →
  run file events new_Ext = Some (outcomes, s) →
  idle s
  ∧ Forall (fun ec => degraded_outcome (fst ec) (snd ec)) outcomes
  ∧ ∃ s',
      on_start None s = (Normal tt, s')
      ∧ idle s'
      ∧ console s' = console s ++ [WarnCameraNotInitialized].
Proof.
  intros Hcamera Hrun.
  assert (Hnew : idle new_Ext) by (by unfold idle).
  destruct (run_preserves file camera_unavailable idle degraded_outcome
              (idle_step file) events new_Ext outcomes s Hcamera Hnew Hrun)
    as [Hidle Hout].
  split_and!; [done..|].
  eexists. rewrite on_start_without_camera.
  split; first done.
  destruct Hidle as (Hbound & Hframes & Hsends & Hlog & Hcalls & Hvideo).
  unfold idle. by_cases_on s.
Qed.

(** *** Recording is off *)

Lemma perform_OnFinish file s :
  fst (perform file OnFinish s) = Normal (FaceMeshData (recordedChunks s)).
Proof. unfold perform. unfold_monad. by rewrite on_finish_eq. Qed.


(** *** Blendshapes *)

(** C5, as the code has it: in both files an emitted object carries
    blendshapes only if a frame of the new backend produced it and the last
    [initialize] selected that backend; in the [Pkg] file only if that
    [initialize] also set [useFullTracking]. The [Src] file has no such
    flag. *)
Theorem blendshapes_need_the_new_backend file before outcomes s e result :
  run file before new_Ext = Some (outcomes, s) →
  emission file e s = Some result →
  carries_blendshapes result →
  (∃ handle detected, e = AnimationFrame handle detected)
  ∧ last_flag useFaceLandmarker before false = true
  ∧ (file = PkgIndex → last_flag useFullTracking before false = true).
Proof.
  intros Hrun Hemit Hcarries.
  destruct (run_last_flags _ _ _ _ _ Hrun) as [Hnew Hfull]. simpl in *.
  destruct e; simpl in Hemit; try done.
  - destruct (bool_decide _ && usingNewAPI s && faceLandmarker s) eqn:Hcond;
      last done.
    apply andb_true_iff in Hcond as [[_ Hnew']%andb_true_iff _].
    split; first by eauto.
    split; first by rewrite <- Hnew.
    intros ->. rewrite <- Hfull by done.
    simplify_eq. simpl in Hcarries.
    destruct (fullTracking s); first done.
    by destruct Hcarries.
  - destruct (multiFaceGeometry results); simplify_eq.
    simpl in Hcarries. by destruct Hcarries.
Qed.

End SessionFacts.

Lemma camera_unavailable_session_witness :
  match run (H := example_host) PkgIndex without_camera new_Ext with
  | Some (outcomes, s) =>
      idle s
      ∧ Forall (fun ec => degraded_outcome (fst ec) (snd ec)) outcomes
      ∧ ∃ s',
          on_start None s = (Normal tt, s')
          ∧ idle s'
          ∧ console s' = console s ++ [WarnCameraNotInitialized]
  | None => False
  end.
Proof.
  destruct (run (H := example_host) PkgIndex without_camera new_Ext)
    as [[outcomes s]|] eqn:Hrun.
  - apply (camera_unavailable_session (H := example_host) PkgIndex
             without_camera outcomes s); last exact Hrun.
    unfold without_camera, camera_unavailable.
    repeat constructor; intros camera [= <-]; reflexivity.
  - vm_compute in Hrun. discriminate Hrun.
Defined.

(** What the session [legacy_not_recording] does: both listeners receive
    the result; nothing is recorded. *)
Lemma legacy_not_recording_calls :
  session_calls (H := example_host) PkgIndex legacy_not_recording
    = Some [(1%nat, located_result 1 1 2 3); (2%nat, located_result 1 1 2 3)]
  ∧ session_last (H := example_host) PkgIndex (legacy_not_recording ++ [OnFinish])
    = Some (Normal (FaceMeshData [])).
Proof. split; vm_compute; reflexivity. Qed.

Lemma blendshapes_need_the_new_backend_witness :
  match
    run (H := example_host) PkgIndex
      (started (modern_params (Some true)) 1%nat 2%nat None) new_Ext
  with
  | Some (outcomes, s) =>
      emission (H := example_host) PkgIndex
        (AnimationFrame 1 jawOpen_detection) s = Some (jawOpen_result 1)
      ∧ (∃ handle detected,
           AnimationFrame 1 jawOpen_detection = AnimationFrame handle detected)
      ∧ last_flag useFaceLandmarker
          (started (modern_params (Some true)) 1%nat 2%nat None) false = true
      ∧ (PkgIndex = PkgIndex →
         last_flag useFullTracking
           (started (modern_params (Some true)) 1%nat 2%nat None) false = true)
  | None => False
  end.
Proof.
  destruct (run (H := example_host) PkgIndex
              (started (modern_params (Some true)) 1%nat 2%nat None) new_Ext)
    as [[outcomes s]|] eqn:Hrun.
  - assert (Hemit : emission (H := example_host) PkgIndex
                      (AnimationFrame 1 jawOpen_detection) s
                    = Some (jawOpen_result 1)).
    { vm_compute in Hrun. injection Hrun as _ <-. vm_compute. reflexivity. }
    split; first exact Hemit.
    apply (blendshapes_need_the_new_backend (H := example_host) PkgIndex
             (started (modern_params (Some true)) 1%nat 2%nat None)
             outcomes s (AnimationFrame 1 jawOpen_detection)
             (jawOpen_result 1) Hrun Hemit).
    simpl. eexists. reflexivity.
  - vm_compute in Hrun. discriminate Hrun.
Defined.

(** C5 does not hold of [src/src/index.ts]: [useFullTracking] is not set,
    and the object handed to the listeners carries the blendshape of the
    backend's result. *)
Lemma src_blendshapes_without_full_tracking :
  last_flag useFullTracking
    (started (modern_params None) 1%nat 2%nat None) false = false
  ∧ session_calls (H := example_host) SrcIndex
      (started (modern_params None) 1%nat 2%nat None
       ++ [AnimationFrame 1 jawOpen_detection])
    = Some [(1%nat, unity_at_origin (<["jawOpen" := 0.5%float]> ∅));
            (2%nat, unity_at_origin (<["jawOpen" := 0.5%float]> ∅))]
  ∧ carries_blendshapes (unity_at_origin (<["jawOpen" := 0.5%float]> ∅)).
Proof.
  split; first reflexivity.
  split; first (vm_compute; reflexivity).
  simpl. apply insert_non_empty.
Qed.

(** ** The two files compared *)

Section TwoFiles.
Context `{Host}.

Lemma same_but_pkg_only_inv s1 s2 :
  same_but_pkg_only s1 s2 →
  s2 = set_console (console s2) (set_fullTracking (fullTracking s2) s1).
Proof.
  unfold same_but_pkg_only, without_pkg_only.
  destruct s1, s2; simpl. by intros [= -> -> -> -> -> -> -> -> -> -> -> -> -> -> -> -> ->].
Qed.

Lemma files_agree_step e s1 s2 :
  same_but_pkg_only s1 s2 →
  usingNewAPI s1 = false →
  legacy_event e →
  enabled e s1 = enabled e s2
  ∧ fst (perform SrcIndex e s1) = fst (perform PkgIndex e s2)
  ∧ same_but_pkg_only (snd (perform SrcIndex e s1)) (snd (perform PkgIndex e s2))
  ∧ usingNewAPI (snd (perform SrcIndex e s1)) = false.
Proof.
  intros Hsame Hold Hlegacy.
  rewrite (same_but_pkg_only_inv _ _ Hsame).
  generalize (console s2) (fullTracking s2). clear s2 Hsame.
  intros lines full.
  split; first by destruct e, s1.
  rewrite perform_usingNewAPI.
  assert (Hflag : match e with
                  | Initialize params _ => flag_of params useFaceLandmarker
                  | _ => usingNewAPI s1
                  end = false).
  { destruct e; try done. by eapply Hlegacy. }
  split_and!; last done; clear Hlegacy;
    unfold same_but_pkg_only, without_pkg_only;
    (destruct e;
      [ | | | | | | | rewrite !perform_AnimationFrame
        | | unfold perform; unfold_monad; rewrite !onMediaPipeResult_eq;
            destruct (multiFaceGeometry _);
            rewrite ?record_and_deliver_eq ];
      unfold_methods; unfold decomposed, recorded, legacy_result;
      by_cases_on s1).
Qed.

Lemma files_agree_from events s1 s2 :
  same_but_pkg_only s1 s2 →
  usingNewAPI s1 = false →
  Forall legacy_event events →
  match run SrcIndex events s1, run PkgIndex events s2 with
  | Some (outcomes1, s1'), Some (outcomes2, s2') =>
      outcomes1 = outcomes2 ∧ same_but_pkg_only s1' s2'
  | None, None => True
  | _, _ => False
  end.
Proof.
  revert s1 s2.
  induction events as [|e rest IH]; intros s1 s2 Hsame Hold Hlegacy; simpl.
  - done.
  - apply Forall_cons in Hlegacy as [He Hrest].
    destruct (files_agree_step e s1 s2 Hsame Hold He)
      as (Hen & Hout & Hsame' & Hold').
    unfold step. rewrite <- Hen.
    destruct (enabled e s1); last done.
    specialize (IH _ _ Hsame' Hold' Hrest).
    destruct (perform SrcIndex e s1) as [c1 s1'].
    destruct (perform PkgIndex e s2) as [c2 s2']. simpl in *. subst c2.
    destruct (run SrcIndex rest s1') as [[out1 s1'']|],
             (run PkgIndex rest s2') as [[out2 s2'']|]; try done.
    destruct IH as [-> ?]. done.
Qed.

(** C2, as the code has it: the two files are equivalent on the old
    backend. In every session whose [initialize] calls select the old
    backend, the same events are possible in both, every call completes
    alike (so [on_finish] returns the same log), the listeners receive the
    same objects in the same order, and the logs are equal. On the new
    backend the files hand on objects of different shapes. *)
Theorem files_agree_on_the_old_backend events :
  Forall legacy_event events →
  match run SrcIndex events new_Ext, run PkgIndex events new_Ext with
  | Some (outcomes1, s1), Some (outcomes2, s2) =>
      outcomes1 = outcomes2
      ∧ invocations s1 = invocations s2
      ∧ recordedChunks s1 = recordedChunks s2
  | None, None => True
  | _, _ => False
  end.
Proof.
  intros Hlegacy.
  assert (Hnew : same_but_pkg_only new_Ext new_Ext) by done.
  pose proof (files_agree_from events new_Ext new_Ext Hnew eq_refl Hlegacy)
    as Hrun.
  destruct (run SrcIndex events new_Ext) as [[out1 s1]|],
           (run PkgIndex events new_Ext) as [[out2 s2]|]; try done.
  destruct Hrun as [-> Hsame%same_but_pkg_only_inv]. rewrite Hsame.
  split_and!; [done | by destruct s1 | by destruct s1].
Qed.

End TwoFiles.

Lemma files_agree_on_the_old_backend_witness :
  match
    run (H := example_host) SrcIndex (legacy_recording ++ [OnFinish]) new_Ext,
    run (H := example_host) PkgIndex (legacy_recording ++ [OnFinish]) new_Ext
  with
  | Some (outcomes1, s1), Some (outcomes2, s2) =>
      outcomes1 = outcomes2
      ∧ invocations s1 = invocations s2
      ∧ recordedChunks s1 = recordedChunks s2
  | None, None => True
  | _, _ => False
  end.
Proof.
  apply (files_agree_on_the_old_backend (H := example_host)
           (legacy_recording ++ [OnFinish])).
  unfold legacy_recording, started, legacy_event. simpl.
  repeat constructor; intros params loads [= <- <-]; reflexivity.
Defined.

(** C2 does not hold of the code: for the same session on the new backend
    the listeners of the [Src] file receive a [unityData] object, those of
    the [Pkg] file an [IFaceTrackingResult]. *)
Lemma files_differ_on_the_new_backend :
  session_calls (H := example_host) SrcIndex
    (started (modern_params None) 1%nat 2%nat None
     ++ [AnimationFrame 1 empty_detection])
  = Some [(1%nat, unity_at_origin ∅); (2%nat, unity_at_origin ∅)]
  ∧ session_calls (H := example_host) PkgIndex
      (started (modern_params None) 1%nat 2%nat None
       ++ [AnimationFrame 1 empty_detection])
    = Some [(1%nat, bare_result 1); (2%nat, bare_result 1)]
  ∧ unity_at_origin ∅ ≠ bare_result 1.
Proof. split_and!; [vm_compute; reflexivity..|discriminate]. Qed.

(** ** Recording off, and results that arrive after [on_finish] *)

Section RecordingOff.
Context `{Host}.


(** C10, as the code has it: [on_finish] clears the recording flag and
    leaves the backend's listener and the registry as they are. As long
    as no [on_load] switches recording on again, a result of the old
    backend that arrives afterwards is handled and is not appended to
    the log. If it carries a face geometry it is handed to the registered
    listeners in registration order, up to and including the first that
    throws, so to all of them if none throws; if it carries none, no
    listener is called. Once [on_load] has switched recording on again,
    such a result is appended to the new log. *)
Theorem stale_result_is_delivered_not_recorded file s results
    between outcomes s2 :
  faceMeshListener s = true →
  Forall recording_off between →
  run file between (snd (on_finish s)) = Some (outcomes, s2) →
  (on_finish s = (Normal (recordedChunks s), snd (on_finish s))
   ∧ recordTracks (snd (on_finish s)) = false
   ∧ faceMeshListener (snd (on_finish s)) = true
   ∧ onResultCallbacks (snd (on_finish s)) = onResultCallbacks s)
  ∧ (∃ c s3,
       step file (FaceMeshResults results) s2 = Some (c, s3)
       ∧ recordedChunks s3 = recordedChunks s2
       ∧ invocations s3 =
           invocations s2
           ++ match multiFaceGeometry results with
              | geometry :: _ =>
                  calls_of
                    (reached (onResultCallbacks s2)
                       (TrackingResult (legacy_result s2 geometry)))
                    (TrackingResult (legacy_result s2 geometry))
              | [] => []
              end
       ∧ ∀ geometry others,
           multiFaceGeometry results = geometry :: others →
           (∀ cb, cb ∈ onResultCallbacks s2 →
              listenerThrows cb (TrackingResult (legacy_result s2 geometry))
              = false) →
           c = Normal Undefined
           ∧ invocations s3 =
               invocations s2
               ++ calls_of (onResultCallbacks s2)
                    (TrackingResult (legacy_result s2 geometry)))
  ∧ ∀ params geometry others,
      flag_of params record = true →
      multiFaceGeometry results = geometry :: others →
      recordedChunks
        (snd (perform file (FaceMeshResults results)
                (snd (perform file (OnLoad params) s2))))
      = [TrackingResult (legacy_result s2 geometry)].
Proof.
  intros Hbound Hoff Hrun.
  assert (Hfinish :
    (on_finish s = (Normal (recordedChunks s), snd (on_finish s))
     ∧ recordTracks (snd (on_finish s)) = false
     ∧ faceMeshListener (snd (on_finish s)) = true
     ∧ onResultCallbacks (snd (on_finish s)) = onResultCallbacks s))
    by (rewrite on_finish_eq; split_and!; by destruct s).
  split; first done.
  destruct Hfinish as (_ & Hflag1 & Hbound1 & _).
  assert (Hkept : ∀ e st,
    recording_off e →
    recordTracks st = false ∧ faceMeshListener st = true →
    enabled e st = true →
    (recordTracks (snd (perform file e st)) = false
     ∧ faceMeshListener (snd (perform file e st)) = true) ∧ True).
  { intros e st He [Hf Hb] _. split; last done.
    split; last by apply perform_faceMeshListener_kept.
    rewrite perform_recordTracks. destruct e; try done. by apply He. }
  destruct (run_preserves file recording_off
              (fun st => recordTracks st = false ∧ faceMeshListener st = true)
              (fun _ _ => True) Hkept between _ outcomes s2 Hoff
              (conj Hflag1 Hbound1) Hrun) as [[Hflag2 Hbound2] _].
  set (e := FaceMeshResults results).
  split.
  - exists (fst (perform file e s2)), (snd (perform file e s2)).
    split_and!.
    + unfold step. change (enabled e s2) with (faceMeshListener s2).
      rewrite Hbound2. by destruct (perform file e s2).
    + rewrite perform_recordedChunks, Hflag2. simpl. by rewrite app_nil_r.
    + rewrite perform_invocations. subst e. unfold emission, calls_for.
      by destruct (multiFaceGeometry results).
    + intros geometry others Hgeometry Hquiet.
      destruct (reached_quiet _ _ Hquiet) as [Hreached Hdone].
      split.
      * subst e. rewrite perform_FaceMeshResults_completion, Hgeometry.
        by rewrite Hdone.
      * rewrite perform_invocations. subst e.
        unfold emission. rewrite Hgeometry. unfold calls_for.
        by rewrite Hreached.
  - intros params geometry others Hrecord Hgeometry.
    rewrite perform_recordedChunks, perform_recordedChunks,
      perform_recordTracks, Hrecord.
    simpl. rewrite Hgeometry. unfold legacy_result.
    replace (animationFrameId (snd (perform file (OnLoad params) s2)))
      with (animationFrameId s2); first done.
    destruct file; unfold_methods; by destruct s2.
Qed.

End RecordingOff.



Lemma stale_result_is_delivered_not_recorded_witness :
  session_state (H := example_host) PkgIndex legacy_recording
    = Some legacy_recording_state
  ∧ match
      run (H := example_host) PkgIndex [SendResolved]
        (snd (on_finish legacy_recording_state))
    with
    | Some (outcomes, s2) =>
        (on_finish legacy_recording_state
           = (Normal [located_result 1 1 2 3],
              snd (on_finish legacy_recording_state))
         ∧ recordTracks (snd (on_finish legacy_recording_state)) = false
         ∧ faceMeshListener (snd (on_finish legacy_recording_state)) = true
         ∧ onResultCallbacks (snd (on_finish legacy_recording_state))
           = [1%nat; 2%nat])
        ∧ (∃ c s3,
             step (H := example_host) PkgIndex
               (FaceMeshResults (face_at 4 5 6)) s2 = Some (c, s3)
             ∧ recordedChunks s3 = recordedChunks s2
             ∧ invocations s3 =
                 invocations s2
                 ++ calls_of
                      (reached (H := example_host) (onResultCallbacks s2)
                         (TrackingResult
                            (legacy_result (H := example_host) s2
                               (mkGeometry (translation_matrix 4 5 6)))))
                      (TrackingResult
                         (legacy_result (H := example_host) s2
                            (mkGeometry (translation_matrix 4 5 6))))
             ∧ ∀ geometry others,
                 multiFaceGeometry (face_at 4 5 6) = geometry :: others →
                 (∀ cb, cb ∈ onResultCallbacks s2 →
                    listenerThrows (Host := example_host) cb
                      (TrackingResult
                         (legacy_result (H := example_host) s2 geometry))
                    = false) →
                 c = Normal Undefined
                 ∧ invocations s3 =
                     invocations s2
                     ++ calls_of (onResultCallbacks s2)
                          (TrackingResult
                             (legacy_result (H := example_host) s2 geometry)))
        ∧ ∀ params geometry others,
            flag_of params record = true →
            multiFaceGeometry (face_at 4 5 6) = geometry :: others →
            recordedChunks
              (snd (perform (H := example_host) PkgIndex
                      (FaceMeshResults (face_at 4 5 6))
                      (snd (perform (H := example_host) PkgIndex
                              (OnLoad params) s2))))
            = [TrackingResult
                 (legacy_result (H := example_host) s2 geometry)]
    | None => False
    end.
Proof.
  split; first (vm_compute; reflexivity).
  destruct (run (H := example_host) PkgIndex [SendResolved]
              (snd (on_finish legacy_recording_state)))
    as [[outcomes s2]|] eqn:Hrun.
  - apply (stale_result_is_delivered_not_recorded (H := example_host) PkgIndex
             legacy_recording_state (face_at 4 5 6) [SendResolved]
             outcomes s2); last exact Hrun.
    + vm_compute. reflexivity.
    + repeat constructor. intros params [=].
  - vm_compute in Hrun. discriminate Hrun.
Defined.

(** What the witness's session does with the stale result: both
    listeners receive it, and the log that [on_finish] returned is not
    extended. *)
Lemma stale_result_after_finish_calls :
  session_calls (H := example_host) PkgIndex
    (legacy_recording
     ++ [OnFinish; SendResolved; FaceMeshResults (face_at 4 5 6)])
  = Some [(1%nat, located_result 1 1 2 3); (2%nat, located_result 1 1 2 3);
          (1%nat, located_result 2 4 5 6); (2%nat, located_result 2 4 5 6)]
  ∧ session_last (H := example_host) PkgIndex
      (legacy_recording
       ++ [OnFinish; SendResolved; FaceMeshResults (face_at 4 5 6); OnFinish])
    = Some (Normal (FaceMeshData [located_result 1 1 2 3])).
Proof. split; vm_compute; reflexivity. Qed.

(** C10 does not hold of the code. A result that arrives after
    [on_finish] reaches listener 13, which throws, and never listener 2,
    registered behind it. And a result that arrives after [on_finish]
    and the next [on_load] for recording is appended to the log. *)
Lemma stale_result_not_to_all_and_recorded :
  session_calls (H := example_host) PkgIndex thrower_finished
    = Some [(13%nat, located_result 1 4 5 6)]
  ∧ session_last (H := example_host) PkgIndex thrower_finished
    = Some (Throw (ListenerError 13%nat))
  ∧ session_last (H := example_host) PkgIndex stale_in_next_trial
    = Some (Normal (FaceMeshData [located_result 1 4 5 6])).
Proof. split_and!; vm_compute; reflexivity. Qed.

(** * Further properties *)

(** ** The registry *)

Lemma indexOf_from_first k before cb behind :
  cb ∉ before →
  indexOf_from k (before ++ cb :: behind) cb = k + Z.of_nat (length before).
Proof.
  revert k. induction before as [|c l IH]; intros k Hnot; simpl.
  - rewrite decide_True by done. lia.
  - apply not_elem_of_cons in Hnot as [Hne Hnot].
    rewrite decide_False by done. rewrite IH by done. lia.
Qed.

Lemma splice_middle {A} (before behind : list A) (a : A) :
  splice (before ++ a :: behind) (Z.of_nat (length before)) 1
  = before ++ behind.
Proof.
  rewrite splice_at by (rewrite length_app; simpl; lia).
  by rewrite delete_middle.
Qed.

(** X1: a function that is not registered, once registered and removed
    again, leaves the registry as it was. *)
Theorem add_then_remove_restores_registry callback s :
  callback ∉ onResultCallbacks s →
  onResultCallbacks
    (snd (removeTrackingResultCallback callback
            (snd (addTrackingResultCallback callback s))))
  = onResultCallbacks s.
Proof.
  intros Hnot.
  transitivity
    (splice (onResultCallbacks s ++ [callback])
       (indexOf (onResultCallbacks s ++ [callback]) callback) 1);
    first by destruct s.
  unfold indexOf. rewrite indexOf_from_first, Z.add_0_l by done.
  rewrite splice_middle. apply app_nil_r.
Qed.

Lemma add_then_remove_restores_registry_witness :
  onResultCallbacks
    (snd (removeTrackingResultCallback 3%nat
            (snd (addTrackingResultCallback 3%nat two_listeners))))
  = [1%nat; 2%nat].
Proof.
  apply (add_then_remove_restores_registry 3%nat two_listeners).
  simpl. rewrite !not_elem_of_cons. split_and!; [lia..|apply not_elem_of_nil].
Defined.

(** X2: removing a registered function removes its first registration
    and nothing else: the listeners before and behind it stay, in their
    order, and later registrations of the same function stay too. *)
Theorem remove_drops_first_registration callback s before behind :
  onResultCallbacks s = before ++ callback :: behind →
  callback ∉ before →
  removeTrackingResultCallback callback s
  = (Normal tt, set_onResultCallbacks (before ++ behind) s).
Proof.
  intros Hregistry Hnot.
  unfold removeTrackingResultCallback, modify, indexOf.
  rewrite Hregistry, indexOf_from_first, Z.add_0_l by done.
  by rewrite splice_middle.
Qed.

Lemma remove_drops_first_registration_witness :
  removeTrackingResultCallback 2%nat
    (set_onResultCallbacks [1%nat; 2%nat; 3%nat; 2%nat] new_Ext)
  = (Normal tt, set_onResultCallbacks [1%nat; 3%nat; 2%nat] new_Ext).
Proof.
  apply (remove_drops_first_registration 2%nat
           (set_onResultCallbacks [1%nat; 2%nat; 3%nat; 2%nat] new_Ext)
           [1%nat] [3%nat; 2%nat]).
  - reflexivity.
  - rewrite not_elem_of_cons. split; [lia|apply not_elem_of_nil].
Defined.

(** X3: whatever function is named, registered or not, a removal takes
    exactly one entry out of a registry that is not empty, and leaves an
    empty registry empty. *)
Theorem remove_shrinks_registry_by_one callback s :
  length (onResultCallbacks (snd (removeTrackingResultCallback callback s)))
  = Nat.pred (length (onResultCallbacks s)).
Proof.
  destruct (decide (callback ∈ onResultCallbacks s)) as [Hin|Hnot].
  - destruct (removeTrackingResultCallback_registered _ _ Hin)
      as (i & Hlook & _ & ->).
    transitivity (length (delete i (onResultCallbacks s)));
      first by destruct s.
    rewrite length_delete by eauto. lia.
  - unfold removeTrackingResultCallback, modify, indexOf.
    rewrite indexOf_from_absent, splice_minus_one by done.
    transitivity (length (removelast (onResultCallbacks s)));
      first by destruct s.
    rewrite removelast_firstn_len, length_take. lia.
Qed.

(** ** What one event does to the frame loop *)

Ltac normal_forms :=
  unfold emission, calls_for, cancelled, decomposed_for, decomposed, recorded,
    modern_result, Pkg.result_of, Src.unityData_of, legacy_result in *.

(** The case analysis by event, with the closed forms of the handlers
    unfolded before the state is taken apart; [fin] closes what is left. *)
Ltac event_cases_with file e s fin :=
  destruct e;
  [ destruct file; unfold_methods; normal_forms; by_cases_on s; fin
  | unfold_methods; normal_forms; by_cases_on s; fin
  | destruct file; unfold_methods; normal_forms; by_cases_on s; fin
  | unfold_methods; normal_forms; by_cases_on s; fin
  | unfold_methods; normal_forms; by_cases_on s; fin
  | unfold_methods; normal_forms; by_cases_on s; fin
  | unfold_methods; normal_forms; by_cases_on s; fin
  | rewrite perform_AnimationFrame; simpl;
    rewrite ?onFaceLandmarkerResult_eq, ?record_and_deliver_eq;
    destruct file; normal_forms; by_cases_on s; fin
  | unfold_methods; normal_forms; by_cases_on s; fin
  | unfold perform; unfold_monad; rewrite onMediaPipeResult_eq; simpl;
    destruct (multiFaceGeometry _) as [|? ?] eqn:?; simpl;
    rewrite ?record_and_deliver_eq; normal_forms; by_cases_on s; fin ].

Section LoopFacts.
Context `{Host}.

Lemma perform_pendingFrames file e s :
  pendingFrames (snd (perform file e s)) =
    match e with
    | OnFinish => cancelled (animationFrameId s) (pendingFrames s)
    | LoadedMetadata =>
        cancelled (animationFrameId s) (pendingFrames s)
        ++ [nextFrameHandle s]
    | AnimationFrame handle _ =>
        filter (fun h => h ≠ handle) (pendingFrames s)
        ++ match emission file e s with
           | Some result =>
               match delivery_completion (onResultCallbacks s) result with
               | Normal _ => [nextFrameHandle s]
               | Throw _ => []
               end
           | None => []
           end
    | SendResolved => pendingFrames s ++ [nextFrameHandle s]
    | _ => pendingFrames s
    end.
Proof. event_cases_with file e s idtac. Qed.

Lemma perform_animationFrameId file e s :
  animationFrameId (snd (perform file e s)) =
    match e with
    | LoadedMetadata | SendResolved => Some (nextFrameHandle s)
    | AnimationFrame _ _ =>
        match emission file e s with
        | Some result =>
            match delivery_completion (onResultCallbacks s) result with
            | Normal _ => Some (nextFrameHandle s)
            | Throw _ => animationFrameId s
            end
        | None => animationFrameId s
        end
    | _ => animationFrameId s
    end.
Proof. event_cases_with file e s idtac. Qed.

Lemma perform_sendsInFlight file e s :
  sendsInFlight (snd (perform file e s)) =
    match e with
    | AnimationFrame _ _ =>
        if bool_decide (is_Some (canvasElement s))
           && negb (usingNewAPI s) && faceMesh s
        then S (sendsInFlight s) else sendsInFlight s
    | SendResolved => Nat.pred (sendsInFlight s)
    | _ => sendsInFlight s
    end.
Proof. event_cases_with file e s idtac. Qed.

Lemma perform_faceMesh file e s :
  faceMesh (snd (perform file e s)) =
    match e with
    | Initialize params _ =>
        if flag_of params useFaceLandmarker then faceMesh s else true
    | _ => faceMesh s
    end.
Proof. event_cases_with file e s idtac. Qed.

Lemma perform_faceLandmarker file e s :
  faceLandmarker (snd (perform file e s)) =
    match e with
    | Initialize params loads =>
        if flag_of params useFaceLandmarker && loads then true
        else faceLandmarker s
    | _ => faceLandmarker s
    end.
Proof. event_cases_with file e s idtac. Qed.

Lemma perform_canvasElement file e s :
  canvasElement (snd (perform file e s)) =
    match e with
    | OnStart _ => Some (mkCanvas 1280 720)
    | _ => canvasElement s
    end.
Proof. event_cases_with file e s idtac. Qed.

End LoopFacts.

(** ** One frame loop on the new backend *)

Section LoopInvariant.
Context `{Host}.

Lemma single_loop_cancelled s :
  single_loop s → cancelled (animationFrameId s) (pendingFrames s) = [].
Proof.
  intros [_ [Hnone|(h & Hone & Hid)]].
  - rewrite Hnone. by destruct (animationFrameId s).
  - rewrite Hone, Hid. simpl. rewrite filter_cons_False by naive_solver.
    by rewrite filter_nil.
Qed.

Lemma single_loop_step file e s :
  modern_event e →
  single_loop s ∧ faceMesh s = false →
  enabled e s = true →
  (single_loop (snd (perform file e s))
   ∧ faceMesh (snd (perform file e s)) = false)
  ∧ True.
Proof.
  intros Hmodern [Hloop Hmesh] Hen.
  split; last done.
  pose proof (single_loop_cancelled s Hloop) as Hcancel.
  destruct Hloop as [Hsends Hframes].
  unfold single_loop.
  rewrite perform_pendingFrames, perform_animationFrameId,
    perform_sendsInFlight, perform_faceMesh.
  destruct e; simpl in Hen; try (split_and!; done).
  - split_and!; [done..|]. by rewrite (Hmodern params loads eq_refl).
  - rewrite Hcancel. split_and!; done || by left.
  - rewrite Hcancel. split_and!; [done| |done]. right. by eexists.
  - apply bool_decide_eq_true in Hen.
    destruct Hframes as [Hnone|(h & Hone & Hid)].
    { rewrite Hnone in Hen. by apply elem_of_nil in Hen. }
    rewrite Hone in Hen. apply list_elem_of_singleton in Hen as ->.
    rewrite Hmesh, andb_false_r, Hone.
    rewrite filter_cons_False by naive_solver. rewrite filter_nil. simpl.
    split_and!; [done| |done].
    repeat case_match; (by left) || (right; by eexists).
  - rewrite Hsends in Hen. by apply bool_decide_eq_true in Hen.
Qed.

(** X4: as long as every [initialize] selects the new backend, there is
    one frame loop at most: at every point of the session at most one
    animation frame is requested, it is the one [animationFrameId]
    names, and no [processFrame] is suspended. *)
Theorem new_backend_single_loop file events outcomes s :
  Forall modern_event events →
  run file events new_Ext = Some (outcomes, s) →
  single_loop s.
Proof.
  intros Hmodern Hrun.
  assert (Hnew : single_loop new_Ext ∧ faceMesh new_Ext = false)
    by (unfold single_loop; simpl; eauto).
  by destruct (run_preserves file modern_event
                 (fun s => single_loop s ∧ faceMesh s = false)
                 (fun _ _ => True) (single_loop_step file)
                 events new_Ext outcomes s Hmodern Hnew Hrun) as [[? _] _].
Qed.

(** X5: where there is one frame loop at most, [on_finish] stops it: no
    frame is requested afterwards, and neither a frame nor a suspended
    [processFrame] can run until a video element fires [loadedmetadata]
    again. *)
Theorem on_finish_stops_single_loop s :
  single_loop s →
  ∃ s',
    on_finish s = (Normal (recordedChunks s), s')
    ∧ pendingFrames s' = []
    ∧ (∀ handle detected, enabled (AnimationFrame handle detected) s' = false)
    ∧ enabled SendResolved s' = false.
Proof.
  intros Hloop.
  pose proof (single_loop_cancelled s Hloop) as Hcancel.
  destruct Hloop as [Hsends _].
  exists (snd (on_finish s)). rewrite on_finish_eq. split; first done.
  simpl snd.
  match goal with |- pendingFrames ?s1 = [] ∧ _ => set (s1' := s1) end.
  assert (Hpending : pendingFrames s1' = []) by (subst s1'; by destruct s).
  assert (Hsends' : sendsInFlight s1' = 0%nat) by (subst s1'; by destruct s).
  split_and!; first done.
  - intros handle detected. unfold enabled. rewrite Hpending.
    apply bool_decide_eq_false, not_elem_of_nil.
  - unfold enabled. apply bool_decide_eq_false. rewrite Hsends'.
    intros Hne. by apply Hne.
Qed.

(** X6: [on_finish] cancels the requested frame only. A [processFrame]
    of the old backend that is suspended at [await send] is not stopped:
    when the send resolves after [on_finish], it requests the next frame
    and the loop runs on. *)
Theorem on_finish_leaves_suspended_frame file s :
  sendsInFlight s ≠ 0%nat →
  ∃ s1 s2,
    on_finish s = (Normal (recordedChunks s), s1)
    ∧ step file SendResolved s1 = Some (Normal Undefined, s2)
    ∧ nextFrameHandle s1 ∈ pendingFrames s2
    ∧ animationFrameId s2 = Some (nextFrameHandle s1)
    ∧ ∀ detected,
        enabled (AnimationFrame (nextFrameHandle s1) detected) s2 = true.
Proof.
  intros Hsends.
  eexists. exists (snd (perform file SendResolved (snd (on_finish s)))).
  rewrite on_finish_eq. split; first done.
  simpl snd.
  match goal with |- context [step file SendResolved ?s1] =>
    set (s1' := s1) end.
  assert (Hen : enabled SendResolved s1' = true).
  { simpl. apply bool_decide_eq_true. subst s1'. by destruct s. }
  assert (Hin : nextFrameHandle s1'
                ∈ pendingFrames (snd (perform file SendResolved s1'))).
  { rewrite perform_pendingFrames. apply elem_of_app. right. by left. }
  split_and!; try done.
  - unfold step. rewrite Hen. reflexivity.
  - intros detected. unfold enabled. by apply bool_decide_eq_true.
Qed.

End LoopInvariant.

Lemma new_backend_single_loop_witness :
  match run (H := example_host) PkgIndex modern_recording new_Ext with
  | Some (outcomes, s) => single_loop s
  | None => False
  end.
Proof.
  destruct (run (H := example_host) PkgIndex modern_recording new_Ext)
    as [[outcomes s]|] eqn:Hrun.
  - apply (new_backend_single_loop (H := example_host) PkgIndex
             modern_recording outcomes s); last exact Hrun.
    unfold modern_recording, started, modern_event. simpl.
    repeat constructor; intros params loads [= <- <-]; reflexivity.
  - vm_compute in Hrun. discriminate Hrun.
Defined.

Lemma on_finish_stops_single_loop_witness :
  match run (H := example_host) PkgIndex modern_recording new_Ext with
  | Some (outcomes, s) =>
      pendingFrames s = [2]
      ∧ ∃ s',
          on_finish s = (Normal (recordedChunks s), s')
          ∧ pendingFrames s' = []
          ∧ (∀ handle detected,
               enabled (AnimationFrame handle detected) s' = false)
          ∧ enabled SendResolved s' = false
  | None => False
  end.
Proof.
  destruct (run (H := example_host) PkgIndex modern_recording new_Ext)
    as [[outcomes s]|] eqn:Hrun.
  - split.
    + vm_compute in Hrun. by injection Hrun as _ <-.
    + apply (on_finish_stops_single_loop s).
      vm_compute in Hrun. injection Hrun as _ <-.
      split; first reflexivity. right. by exists 2.
  - vm_compute in Hrun. discriminate Hrun.
Defined.

Lemma on_finish_leaves_suspended_frame_witness :
  sendsInFlight legacy_recording_state = 1%nat
  ∧ ∃ s1 s2,
      on_finish legacy_recording_state
        = (Normal (recordedChunks legacy_recording_state), s1)
      ∧ step (H := example_host) PkgIndex SendResolved s1
        = Some (Normal Undefined, s2)
      ∧ nextFrameHandle s1 ∈ pendingFrames s2
      ∧ animationFrameId s2 = Some (nextFrameHandle s1)
      ∧ ∀ detected,
          enabled (AnimationFrame (nextFrameHandle s1) detected) s2 = true.
Proof.
  split; first (vm_compute; reflexivity).
  apply (on_finish_leaves_suspended_frame (H := example_host) PkgIndex
           legacy_recording_state).
  vm_compute. discriminate.
Defined.

(** ** Which exceptions can leave the extension *)

Section Safety.
Context `{Host}.

Lemma delivery_completion_failure callbacks result :
  listener_failure_at_most (delivery_completion callbacks result).
Proof.
  unfold delivery_completion.
  by destruct (List.find _ callbacks).
Qed.

Lemma delivery_completion_throws callbacks result e :
  delivery_completion callbacks result = Throw e →
  ∃ cb, e = ListenerError cb.
Proof.
  unfold delivery_completion.
  destruct (List.find _ callbacks); intros [= <-]; eauto.
Qed.

Lemma perform_armed file e s :
  match e with
  | OnStart _ => True
  | _ =>
      existsb onloadedmetadata
        (option_list (videoElement (snd (perform file e s)))
         ++ detachedVideos (snd (perform file e s)))
      = existsb onloadedmetadata
          (option_list (videoElement s) ++ detachedVideos s)
  end.
Proof. event_cases_with file e s idtac. Qed.

Lemma ready_completion file e s :
  loading_event e → ready s → enabled e s = true →
  listener_failure_at_most (fst (perform file e s)).
Proof.
  intros Hloading [Hbackend Hcanvas] Hen.
  assert (Hloads : match e with
                   | Initialize _ loads => loads = true
                   | _ => True
                   end)
    by (destruct e; try done; by eapply Hloading).
  assert (Hframe : match e with
                   | AnimationFrame _ _ => is_Some (canvasElement s)
                   | _ => True
                   end).
  { destruct e; try done. destruct Hcanvas as [?|(Hnone & _)]; first done.
    simpl in Hen. rewrite Hnone in Hen.
    by apply bool_decide_eq_true, elem_of_nil in Hen. }
  clear Hloading Hcanvas Hen.
  event_cases_with file e s
    ltac:(repeat match goal with
                 | Hthrow : delivery_completion _ _ = Throw _ |- _ =>
                     apply delivery_completion_throws in Hthrow as [? ?];
                     simplify_eq
                 | Hnone : is_Some None |- _ => by destruct Hnone
                 end;
          try done).
Qed.

Lemma ready_step file e s :
  loading_event e → ready s → enabled e s = true →
  ready (snd (perform file e s))
  ∧ listener_failure_at_most (fst (perform file e s)).
Proof.
  intros Hloading Hready Hen.
  split; last by apply ready_completion.
  destruct Hready as [Hbackend Hcanvas]. unfold ready.
  rewrite perform_usingNewAPI, perform_faceMesh, perform_faceLandmarker,
    perform_canvasElement, perform_pendingFrames, perform_sendsInFlight.
  pose proof (perform_armed file e s) as Harmed.
  destruct e; cbv beta iota in Harmed;
    try (split; [done|]; try rewrite Harmed; done).
  - rewrite Harmed, (Hloading params loads eq_refl), andb_true_r.
    split; last done.
    by destruct (flag_of params useFaceLandmarker).
  - split; first done. left. by eexists.
  - split; first done. destruct Hcanvas as [?|(Hnone & Hsends & Hvideo)].
    + by left.
    + right. rewrite Harmed, Hnone. by destruct (animationFrameId s).
  - split; first done. destruct Hcanvas as [?|(Hnone & Hsends & Hvideo)].
    + by left.
    + simpl in Hen. by rewrite Hvideo in Hen.
  - split; first done. destruct Hcanvas as [?|(Hnone & Hsends & Hvideo)].
    + by left.
    + simpl in Hen. rewrite Hnone in Hen.
      by apply bool_decide_eq_true, elem_of_nil in Hen.
  - split; first done. destruct Hcanvas as [?|(Hnone & Hsends & Hvideo)].
    + by left.
    + simpl in Hen. rewrite Hsends in Hen.
      by apply bool_decide_eq_true in Hen.
Qed.

(** X7: where the object of the selected backend exists, and the canvas
    exists wherever a frame can still run, no call into the extension
    other than [initialize] and no callback of the browser or the backend
    fails on a missing object: every such event returns, or ends with the
    exception of a listener, and the condition holds afterwards. *)
Theorem ready_extension_is_safe file events s outcomes s' :
  ready s →
  Forall (fun e => ∀ params loads, e ≠ Initialize params loads) events →
  run file events s = Some (outcomes, s') →
  ready s'
  ∧ Forall (fun ec => listener_failure_at_most (snd ec)) outcomes.
Proof.
  intros Hready Hevents Hrun.
  assert (Hloading : Forall loading_event events).
  { eapply Forall_impl; first exact Hevents.
    intros e He params loads ->. by destruct (He params loads). }
  exact (run_preserves file loading_event ready
           (fun _ c => listener_failure_at_most c) (ready_step file)
           events s outcomes s' Hloading Hready Hrun).
Qed.

End Safety.

Lemma ready_extension_is_safe_witness :
  match
    run (H := example_host) PkgIndex (List.tl (legacy_recording ++ [OnFinish]))
      initialized_legacy
  with
  | Some (outcomes, s') =>
      ready s'
      ∧ Forall (fun ec => listener_failure_at_most (snd ec)) outcomes
  | None => False
  end.
Proof.
  destruct (run (H := example_host) PkgIndex
              (List.tl (legacy_recording ++ [OnFinish])) initialized_legacy)
    as [[outcomes s']|] eqn:Hrun.
  - apply (ready_extension_is_safe (H := example_host) PkgIndex
             (List.tl (legacy_recording ++ [OnFinish])) initialized_legacy
             outcomes s'); last exact Hrun.
    + split; first reflexivity. right. by split_and!.
    + simpl. repeat constructor; by intros params loads.
  - vm_compute in Hrun. discriminate Hrun.
Defined.

(** ** The log and the live stream *)

Section LogFacts.
Context `{Host}.

(** X8: while the extension records, every object it hands on is appended
    to the log, also when a listener throws on it: the push comes before
    the listeners are called. *)
Theorem recording_keeps_result_when_listener_throws file e s c s' result :
  recordTracks s = true →
  step file e s = Some (c, s') →
  emission file e s = Some result →
  recordedChunks s' = recordedChunks s ++ [result].
Proof.
  intros Hrecording Hstep Hemit. unfold step in Hstep.
  destruct (enabled e s); last done.
  assert (Hs' : s' = snd (perform file e s))
    by (destruct (perform file e s); by simplify_eq).
  subst s'. rewrite perform_recordedChunks, Hrecording, Hemit.
  by destruct e.
Qed.

Lemma recording_segment file events s outcomes s' :
  recordTracks s = true →
  Forall keeps_recording events →
  run file events s = Some (outcomes, s') →
  recordTracks s' = true
  ∧ recordedChunks s' = recordedChunks s ++ emitted_along file events s.
Proof.
  revert s outcomes.
  induction events as [|e rest IH]; intros s outcomes Hrecording Hkeeps Hrun.
  - simpl in *. simplify_eq. by rewrite app_nil_r.
  - apply Forall_cons in Hkeeps as [He Hrest].
    apply run_cons in Hrun as (tail & _ & -> & Hrun).
    assert (Hflag : recordTracks (snd (perform file e s)) = true)
      by (rewrite perform_recordTracks; by destruct e).
    destruct (IH _ _ Hflag Hrest Hrun) as [Hend ->].
    split; first done.
    rewrite perform_recordedChunks, Hrecording. simpl.
    destruct e; try done; by rewrite app_assoc.
Qed.

(** X9: [on_finish] returns exactly what was handed on since the
    [on_load] that switched recording on, in the order in which it was
    handed on, if neither [on_load] nor [on_finish] was called in
    between. *)
Theorem on_finish_returns_what_was_emitted file params events s outcomes s' :
  flag_of params record = true →
  Forall keeps_recording events →
  run file events (snd (perform file (OnLoad params) s)) = Some (outcomes, s') →
  fst (perform file OnFinish s')
  = Normal (FaceMeshData
              (emitted_along file events (snd (perform file (OnLoad params) s)))).
Proof.
  intros Hrecord Hkeeps Hrun.
  assert (Hflag : recordTracks (snd (perform file (OnLoad params) s)) = true)
    by (by rewrite perform_recordTracks).
  destruct (recording_segment _ _ _ _ _ Hflag Hkeeps Hrun) as [_ Hlog].
  rewrite perform_recordedChunks in Hlog. simpl in Hlog.
  by rewrite perform_OnFinish, Hlog.
Qed.

(** X10: as long as no listener is registered or removed and the
    registered listeners return, each object handed on goes to every
    registered listener, in registration order, and the objects arrive in
    the order in which they were handed on. *)
Theorem listeners_receive_what_was_emitted file events s outcomes s' :
  Forall keeps_registry events →
  (∀ cb result, cb ∈ onResultCallbacks s → listenerThrows cb result = false) →
  run file events s = Some (outcomes, s') →
  invocations s' =
    invocations s
    ++ flat_map (calls_of (onResultCallbacks s)) (emitted_along file events s).
Proof.
  revert s outcomes.
  induction events as [|e rest IH]; intros s outcomes Hkeeps Hquiet Hrun.
  - simpl in *. simplify_eq. by rewrite app_nil_r.
  - apply Forall_cons in Hkeeps as [He Hrest].
    apply run_cons in Hrun as (tail & _ & -> & Hrun).
    assert (Hregistry :
      onResultCallbacks (snd (perform file e s)) = onResultCallbacks s)
      by (rewrite perform_onResultCallbacks; by destruct e).
    rewrite (IH _ _ Hrest) by (by rewrite ?Hregistry).
    rewrite Hregistry, perform_invocations. simpl.
    rewrite flat_map_app, <- app_assoc. f_equal. f_equal.
    destruct (emission file e s) as [result|]; last done.
    simpl. rewrite app_nil_r.
    by destruct (reached_quiet (onResultCallbacks s) result
                   (fun cb Hcb => Hquiet cb result Hcb)) as [-> _].
Qed.

End LogFacts.

Lemma recording_keeps_result_when_listener_throws_witness :
  session_state (H := example_host) PkgIndex throwing_recording
    = Some throwing_recording_state
  ∧ match
      step (H := example_host) PkgIndex (AnimationFrame 1 empty_detection)
        throwing_recording_state
    with
    | Some (c, s') =>
        c = Throw (ListenerError 13%nat)
        ∧ recordedChunks s'
          = recordedChunks throwing_recording_state ++ [bare_result 1]
    | None => False
    end.
Proof.
  split; first (vm_compute; reflexivity).
  destruct (step (H := example_host) PkgIndex
              (AnimationFrame 1 empty_detection) throwing_recording_state)
    as [[c s']|] eqn:Hstep.
  - split.
    + vm_compute in Hstep. by injection Hstep as <- _.
    + apply (recording_keeps_result_when_listener_throws
               (H := example_host) PkgIndex
               (AnimationFrame 1 empty_detection) throwing_recording_state
               c s' (bare_result 1)); [|exact Hstep|];
        vm_compute; reflexivity.
  - vm_compute in Hstep. discriminate Hstep.
Defined.

Lemma on_finish_returns_what_was_emitted_witness :
  match
    run (H := example_host) PkgIndex two_frames
      (snd (perform (H := example_host) PkgIndex (OnLoad recording_on)
              two_listeners))
  with
  | Some (outcomes, s') =>
      fst (perform (H := example_host) PkgIndex OnFinish s')
      = Normal (FaceMeshData [jawOpen_result 1; bare_result 2])
  | None => False
  end.
Proof.
  destruct (run (H := example_host) PkgIndex two_frames
              (snd (perform (H := example_host) PkgIndex (OnLoad recording_on)
                      two_listeners))) as [[outcomes s']|] eqn:Hrun.
  - rewrite (on_finish_returns_what_was_emitted (H := example_host) PkgIndex
               recording_on two_frames two_listeners outcomes s').
    + vm_compute. reflexivity.
    + reflexivity.
    + unfold two_frames. repeat constructor.
    + exact Hrun.
  - vm_compute in Hrun. discriminate Hrun.
Defined.

Lemma listeners_receive_what_was_emitted_witness :
  match run (H := example_host) PkgIndex two_frames two_listeners with
  | Some (outcomes, s') =>
      invocations s' =
        [(1%nat, jawOpen_result 1); (2%nat, jawOpen_result 1);
         (1%nat, bare_result 2); (2%nat, bare_result 2)]
  | None => False
  end.
Proof.
  destruct (run (H := example_host) PkgIndex two_frames two_listeners)
    as [[outcomes s']|] eqn:Hrun.
  - rewrite (listeners_receive_what_was_emitted (H := example_host) PkgIndex
               two_frames two_listeners outcomes s').
    + vm_compute. reflexivity.
    + unfold two_frames. repeat constructor.
    + intros cb result Hcb. apply bool_decide_eq_false.
      simpl in Hcb. rewrite !elem_of_cons, elem_of_nil in Hcb. lia.
    + exact Hrun.
  - vm_compute in Hrun. discriminate Hrun.
Defined.

(** ** What the new API's handlers make of a result *)

Section ResultFacts.
Context `{Host}.

(** X11: of the matrices of a result only the first is used. Both files
    make the two three.js calls on it and no other. The [Pkg] file hands
    on the matrix with the rotation and the position three.js returns;
    the [Src] file hands on the rotation with its x angle negated and the
    position divided by 100. *)
Theorem first_matrix_is_decomposed file detected first others s :
  facialTransformationMatrixes detected = Some (first :: others) →
  let m := data first in
  threeCalls (snd (onFaceLandmarkerResult file detected s))
  = threeCalls s ++ [SetFromRotationMatrix m; SetFromMatrixPosition m]
  ∧ onFaceLandmarkerResult file detected s
    = record_and_deliver (modern_result file s detected) (decomposed m s)
  ∧ match file with
    | PkgIndex =>
        ∃ r, modern_result file s detected = TrackingResult r
             ∧ frame_id r = animationFrameId s
             ∧ transformation r = Some m
             ∧ rotation r = Some (setFromRotationMatrix m)
             ∧ translation r = Some (setFromMatrixPosition m)
    | SrcIndex =>
        ∃ u, modern_result file s detected = Unity u
             ∧ u_rotation u
               = XYZ.mk (- e_x (setFromRotationMatrix m))
                   (e_y (setFromRotationMatrix m))
                   (e_z (setFromRotationMatrix m))
             ∧ u_translation u
               = XYZ.mk (v_x (setFromMatrixPosition m) / 100)
                   (v_y (setFromMatrixPosition m) / 100)
                   (v_z (setFromMatrixPosition m) / 100)
    end.
Proof.
  intros Hfirst m.
  assert (Hfor : decomposed_for detected s = decomposed m s)
    by (unfold decomposed_for; by rewrite Hfirst).
  rewrite onFaceLandmarkerResult_eq, Hfor.
  split_and!; [|done|].
  - rewrite record_and_deliver_eq. unfold recorded, decomposed.
    by_cases_on s.
  - destruct file; simpl; eexists; (split; first done);
      unfold Src.unityData_of, Pkg.result_of; by rewrite Hfirst.
Qed.

End ResultFacts.

Lemma first_matrix_is_decomposed_witness :
  threeCalls
    (snd (onFaceLandmarkerResult (H := example_host) PkgIndex two_faces
            two_listeners))
  = [SetFromRotationMatrix (translation_matrix 1 2 3);
     SetFromMatrixPosition (translation_matrix 1 2 3)]
  ∧ onFaceLandmarkerResult (H := example_host) PkgIndex two_faces two_listeners
    = record_and_deliver (H := example_host)
        (modern_result (H := example_host) PkgIndex two_listeners two_faces)
        (decomposed (translation_matrix 1 2 3) two_listeners)
  ∧ ∃ r, modern_result (H := example_host) PkgIndex two_listeners two_faces
         = TrackingResult r
         ∧ frame_id r = None
         ∧ transformation r = Some (translation_matrix 1 2 3)
         ∧ rotation r = Some (mkEuler (-0) 0 (-0))
         ∧ translation r = Some (mkVector3 1 2 3).
Proof.
  apply (first_matrix_is_decomposed (H := example_host) PkgIndex two_faces
           (mkFTM (translation_matrix 1 2 3))
           [mkFTM (translation_matrix 4 5 6)] two_listeners).
  reflexivity.
Defined.

(** ** The Unity object of [src/src/index.ts] *)

Lemma blendshapes_fold_lookup (cats : list BlendshapeCategory) name :
  foldl Src.assign_score (∅ : gmap string number) cats !! name
  = if decide (name = "__proto__") then None
    else cat_score <$> last_named name cats.
Proof.
  unfold last_named.
  induction cats as [|c cats IH] using rev_ind.
  - simpl. by case_decide.
  - rewrite foldl_app, filter_app. simpl. unfold Src.assign_score at 1.
    destruct (decide (categoryName c = "__proto__")) as [Hproto|Hkey].
    + rewrite IH. case_decide as Hname; first done.
      rewrite filter_cons_False by congruence.
      by rewrite filter_nil, app_nil_r.
    + destruct (decide (categoryName c = name)) as [<-|Hne].
      * rewrite lookup_insert_eq, decide_False by done.
        rewrite filter_cons_True, filter_nil by done.
        by rewrite last_snoc.
      * rewrite lookup_insert_ne, IH by done.
        rewrite filter_cons_False, filter_nil by done.
        by rewrite app_nil_r.
Qed.

(** X12: in the Unity object the blendshapes are built from the first
    blendshape of the result. Its own properties are the category names
    other than [__proto__]: such a name holds the score of the last
    category of that name, and a name that no category has holds
    nothing. The name [__proto__] is never a property, whatever the
    categories, and with no blendshape in the result there is no
    property at all. *)
Theorem unity_blendshapes_lookup detected name :
  Src.blendshapesObj_of detected !! name
  = match faceBlendshapes detected with
    | Some (first :: _) =>
        if decide (name = "__proto__") then None
        else cat_score <$> last_named name (categories first)
    | _ => None
    end.
Proof.
  unfold Src.blendshapesObj_of.
  destruct (faceBlendshapes detected) as [[|first ?]|]; try done.
  apply blendshapes_fold_lookup.
Qed.

Lemma flat_landmarks_lookup (face : list NormalizedLandmark) i lm :
  face !! i = Some lm →
  let flat := flat_map (fun lm => [lm_x lm; lm_y lm; lm_z lm]) face in
  flat !! (3 * i)%nat = Some (lm_x lm)
  ∧ flat !! (3 * i + 1)%nat = Some (lm_y lm)
  ∧ flat !! (3 * i + 2)%nat = Some (lm_z lm).
Proof.
  revert i. induction face as [|l face IH]; intros i Hlook; first done.
  destruct i as [|i]; simpl in *.
  - by simplify_eq.
  - destruct (IH i Hlook) as (Hx & Hy & Hz).
    replace (i + S (i + S (i + 0)))%nat with (S (S (3 * i)))%nat by lia.
    simpl. replace (i + (i + (i + 0)))%nat with (3 * i)%nat by lia.
    done.
Qed.

Lemma flat_landmarks_length (face : list NormalizedLandmark) :
  length (flat_map (fun lm => [lm_x lm; lm_y lm; lm_z lm]) face)
  = (3 * length face)%nat.
Proof. induction face as [|l face IH]; simpl; lia. Qed.

(** X13: the landmarks of the Unity object are those of the first face of
    the result and of no other, flattened: three numbers per landmark,
    and landmark [i] is found at the indices [3i], [3i+1] and [3i+2] as
    x, y and z. *)
Theorem unity_landmarks_layout detected first others i lm :
  landmarks detected = Some (first :: others) →
  first !! i = Some lm →
  let flat := Src.landmarksFlat_of detected in
  length flat = (3 * length first)%nat
  ∧ flat !! (3 * i)%nat = Some (lm_x lm)
  ∧ flat !! (3 * i + 1)%nat = Some (lm_y lm)
  ∧ flat !! (3 * i + 2)%nat = Some (lm_z lm).
Proof.
  intros Hfirst Hlook. unfold Src.landmarksFlat_of.
  rewrite Hfirst. split; first apply flat_landmarks_length.
  by apply flat_landmarks_lookup.
Qed.

Lemma unity_landmarks_layout_witness :
  let flat := Src.landmarksFlat_of two_landmarks in
  length flat = 6%nat
  ∧ flat !! 3%nat = Some 0.5%float
  ∧ flat !! 4%nat = Some 0.25%float
  ∧ flat !! 5%nat = Some 2%float.
Proof.
  apply (unity_landmarks_layout two_landmarks
           [mkLandmark 1 1 1 None; mkLandmark 0.5 0.25 2 None]
           [[mkLandmark 3 3 3 None]] 1%nat (mkLandmark 0.5 0.25 2 None));
    reflexivity.
Defined.

(** ** Starting, and starting without a backend *)

(** X14: [on_start] neither requests nor cancels a frame, whatever the
    camera and whether it returns or throws: a frame loop that runs
    keeps running, with the frames it had requested. It leaves the log,
    the recording flag, the registry and the listeners' calls alone. *)
Theorem on_start_keeps_loop_and_log camera s :
  let s' := snd (on_start camera s) in
  pendingFrames s' = pendingFrames s
  ∧ animationFrameId s' = animationFrameId s
  ∧ sendsInFlight s' = sendsInFlight s
  ∧ recordedChunks s' = recordedChunks s
  ∧ recordTracks s' = recordTracks s
  ∧ onResultCallbacks s' = onResultCallbacks s
  ∧ invocations s' = invocations s
  ∧ ∀ handle detected,
      enabled (AnimationFrame handle detected) s'
      = enabled (AnimationFrame handle detected) s.
Proof.
  unfold_methods. destruct camera; by_cases_on s.
Qed.

(** X15: [on_start] on the old backend before [initialize] has created
    the FaceMesh object throws a [TypeError] at [faceMesh.onResults]. The
    camera stream and the video element with its [onloadedmetadata]
    handler are in place by then, the backend's listener is not bound and
    the video is not played. *)
Theorem on_start_without_faceMesh stream s :
  usingNewAPI s = false →
  faceMesh s = false →
  ∃ s',
    on_start (Some stream) s = (Throw (TypeError "faceMesh"), s')
    ∧ mediaStream s' = Some stream
    ∧ videoElement s' = Some (mkVideo true (Some stream) true false)
    ∧ faceMeshListener s' = faceMeshListener s
    ∧ enabled LoadedMetadata s' = true.
Proof.
  intros Hold Hmesh. exists (snd (on_start (Some stream) s)).
  unfold_methods. split_and!; by_cases_on s.
Qed.

Lemma on_start_without_faceMesh_witness :
  ∃ s',
    on_start (Some 7%nat) new_Ext = (Throw (TypeError "faceMesh"), s')
    ∧ mediaStream s' = Some 7%nat
    ∧ videoElement s' = Some (mkVideo true (Some 7%nat) true false)
    ∧ faceMeshListener s' = false
    ∧ enabled LoadedMetadata s' = true.
Proof.
  apply (on_start_without_faceMesh 7%nat new_Ext); reflexivity.
Defined.

Section FailedInitialize.
Context `{Host}.

(** X16: when [initialize] has selected the new backend and its creation
    has failed, a frame that runs throws a [TypeError] at
    [detectForVideo]: nothing is handed on or recorded, and the next
    frame is not requested. *)
Theorem frame_without_faceLandmarker file handle detected s :
  is_Some (canvasElement s) →
  usingNewAPI s = true →
  faceLandmarker s = false →
  ∃ s',
    perform file (AnimationFrame handle detected) s
    = (Throw (TypeError "faceLandmarker"), s')
    ∧ invocations s' = invocations s
    ∧ recordedChunks s' = recordedChunks s
    ∧ pendingFrames s' = filter (fun h => h ≠ handle) (pendingFrames s).
Proof.
  intros [canvas Hcanvas] Hnew Hmissing.
  rewrite perform_AnimationFrame, Hcanvas, Hnew, Hmissing. simpl.
  eexists. split; first done. by destruct s.
Qed.

End FailedInitialize.

Lemma frame_without_faceLandmarker_witness :
  session_state (H := example_host) PkgIndex failed_start
    = Some failed_start_state
  ∧ ∃ s',
      perform (H := example_host) PkgIndex (AnimationFrame 1 jawOpen_detection)
        failed_start_state
      = (Throw (TypeError "faceLandmarker"), s')
      ∧ invocations s' = []
      ∧ recordedChunks s' = []
      ∧ pendingFrames s' = [].
Proof.
  split; first (vm_compute; reflexivity).
  apply (frame_without_faceLandmarker (H := example_host) PkgIndex 1
           jawOpen_detection failed_start_state).
  - vm_compute. by eexists.
  - reflexivity.
  - reflexivity.
Defined.

(** ** Frame ids *)

Section FrameIds.
Context `{Host}.

Lemma perform_nextFrameHandle file e s :
  nextFrameHandle (snd (perform file e s)) =
    match e with
    | LoadedMetadata | SendResolved => nextFrameHandle s + 1
    | AnimationFrame _ _ =>
        match emission file e s with
        | Some result =>
            match delivery_completion (onResultCallbacks s) result with
            | Normal _ => nextFrameHandle s + 1
            | Throw _ => nextFrameHandle s
            end
        | None => nextFrameHandle s
        end
    | _ => nextFrameHandle s
    end.
Proof. event_cases_with file e s idtac. Qed.

Lemma frame_le_refl a : frame_le a a.
Proof. destruct a; simpl; [lia|done]. Qed.

Lemma frame_le_trans a b c : frame_le a b → frame_le b c → frame_le a c.
Proof. destruct a, b, c; simpl; try done; lia. Qed.

Lemma emission_frame e s result :
  emission PkgIndex e s = Some result →
  frame_of result = animationFrameId s.
Proof.
  destruct e; simpl; try done.
  - case_match; by intros [= <-].
  - destruct (multiFaceGeometry results); by intros [= <-].
Qed.

Lemma frames_ascend_equal fresh a :
  Forall (fun r => frame_of r = a) fresh → frames_ascend fresh.
Proof.
  unfold frames_ascend.
  induction 1 as [|r fresh Hr Hfresh IH]; simpl; constructor; first done.
  apply Forall_forall. intros b Hb.
  apply list_elem_of_fmap in Hb as (r' & -> & Hr').
  rewrite Forall_forall in Hfresh. rewrite Hr, (Hfresh r' Hr').
  apply frame_le_refl.
Qed.

Lemma frames_ascend_app results fresh a :
  frames_ascend results →
  Forall (fun r => frame_le (frame_of r) a) results →
  Forall (fun r => frame_of r = a) fresh →
  frames_ascend (results ++ fresh).
Proof.
  intros Hsorted Hbound Hfresh.
  induction results as [|r results IH]; simpl.
  - by eapply frames_ascend_equal.
  - unfold frames_ascend in *. simpl in *.
    apply Sorted.StronglySorted_inv in Hsorted as [Hsorted Hr].
    apply Forall_cons in Hbound as [Hra Hbound].
    constructor; first by apply IH.
    rewrite map_app. apply Forall_app. split; first done.
    apply Forall_forall. intros b Hb.
    apply list_elem_of_fmap in Hb as (r' & -> & Hr').
    rewrite Forall_forall in Hfresh. by rewrite (Hfresh r' Hr').
Qed.

Lemma calls_for_frames s emitted a :
  (∀ result, emitted = Some result → frame_of result = a) →
  Forall (fun r => frame_of r = a) (map snd (calls_for s emitted)).
Proof.
  intros Hframe. destruct emitted as [result|]; simpl; last done.
  unfold calls_of. rewrite map_map. simpl.
  apply Forall_forall. intros r Hr.
  apply list_elem_of_fmap in Hr as (cb & -> & _). by apply Hframe.
Qed.

Lemma frames_step e s :
  True → frames_up_to_now s → enabled e s = true →
  frames_up_to_now (snd (perform PkgIndex e s)) ∧ True.
Proof.
  intros _ (Hfresh & Hbound & Hcalls & Hlog) _. split; last done.
  apply Forall_app in Hbound as [Hbound_calls Hbound_log].
  pose proof (emission_frame e s) as Hframe.
  assert (Hnow : frame_le (animationFrameId s)
                   (animationFrameId (snd (perform PkgIndex e s)))).
  { rewrite perform_animationFrameId.
    assert (Hnext : frame_le (animationFrameId s) (Some (nextFrameHandle s))).
    { destruct (animationFrameId s) as [i|] eqn:Hid; last done.
      simpl. specialize (Hfresh i eq_refl). lia. }
    destruct e; try apply frame_le_refl; try done.
    repeat case_match; done || apply frame_le_refl. }
  assert (Hnew_calls :
    Forall (fun r => frame_of r = animationFrameId s)
      (map snd (calls_for s (emission PkgIndex e s))))
    by (by apply calls_for_frames).
  assert (Hnew_log :
    Forall (fun r => frame_of r = animationFrameId s)
      (if recordTracks s then option_list (emission PkgIndex e s) else [])).
  { destruct (recordTracks s); last done.
    destruct (emission PkgIndex e s) as [result|] eqn:Hemit; last done.
    constructor; [by apply Hframe | done]. }
  unfold frames_up_to_now.
  rewrite perform_invocations, map_app.
  split_and!.
  - intros i. rewrite perform_animationFrameId, perform_nextFrameHandle.
    destruct e; try apply Hfresh; try (intros [= <-]; lia).
    repeat case_match; try apply Hfresh; intros [= <-]; lia.
  - apply Forall_app. split; first (apply Forall_app; split).
    + eapply Forall_impl; first exact Hbound_calls.
      intros r Hr. simpl in Hr. by eapply frame_le_trans.
    + eapply Forall_impl; first exact Hnew_calls.
      intros r Hr. simpl in Hr. by rewrite Hr.
    + rewrite perform_recordedChunks.
      destruct e;
        try (apply Forall_app; split;
             [ eapply Forall_impl; first exact Hbound_log;
               intros r Hr; simpl in Hr; by eapply frame_le_trans
             | eapply Forall_impl; first exact Hnew_log;
               intros r Hr; simpl in Hr; by rewrite Hr ]).
      done.
  - by eapply frames_ascend_app.
  - rewrite perform_recordedChunks.
    destruct e; try (by eapply frames_ascend_app).
    constructor.
Qed.

(** X17: in the [Pkg] file the frame ids never go back. In every session
    the objects handed to the listeners carry frame ids that never
    decrease, and so do the objects in the log; results that arrive
    before the first frame was requested carry no frame id and come
    first. *)
Theorem frame_ids_never_decrease events outcomes s :
  run PkgIndex events new_Ext = Some (outcomes, s) →
  frames_ascend (map snd (invocations s))
  ∧ frames_ascend (recordedChunks s).
Proof.
  intros Hrun.
  assert (Hnew : frames_up_to_now new_Ext).
  { unfold frames_up_to_now, frames_ascend. simpl.
    split_and!; [done | done | constructor | constructor]. }
  assert (Hall : Forall (fun _ => True) events)
    by (apply Forall_forall; done).
  destruct (run_preserves PkgIndex (fun _ => True) frames_up_to_now
              (fun _ _ => True) frames_step
              events new_Ext outcomes s Hall Hnew Hrun)
    as [(_ & _ & Hcalls & Hlog) _].
  done.
Qed.

End FrameIds.

Lemma frame_ids_never_decrease_witness :
  match run (H := example_host) PkgIndex two_frame_recording new_Ext with
  | Some (outcomes, s) =>
      (frames_ascend (map snd (invocations s))
       ∧ frames_ascend (recordedChunks s))
      ∧ map frame_of (recordedChunks s) = [Some 1; Some 2]
  | None => False
  end.
Proof.
  destruct (run (H := example_host) PkgIndex two_frame_recording new_Ext)
    as [[outcomes s]|] eqn:Hrun.
  - split.
    + exact (frame_ids_never_decrease (H := example_host)
               two_frame_recording outcomes s Hrun).
    + vm_compute in Hrun. by injection Hrun as _ <-.
  - vm_compute in Hrun. discriminate Hrun.
Defined.
